(** * Target synchronisation and process supervision of the Prometheus manager

    A shallow embedding of [prometheus/app.py]: the registry reader
    ([get_db_connection], [fetch_services]), the change detector
    ([get_services_hash], [check_for_service_changes]), the URL resolver
    ([extract_target_from_url]), the configuration synthesiser
    ([generate_prometheus_config], [write_prometheus_config]), the process
    supervisor ([stop_prometheus], [reload_prometheus]) and the body of the
    monitoring loop ([monitor_services]).

    Python's module globals, the file system and the operating system are an
    explicit [World]; everything the outside decides (what the database
    answers, whether the daemon is still alive, whether a signal or a disk
    write succeeds) is read from the [Platform], indexed by the number of
    interactions made so far.  Exceptions are an [outcome]; state changes made
    before an exception is raised persist, as in Python. *)

From Stdlib Require Import ZArith NArith Ascii String.
From stdpp Require Import base tactics option list sorting strings pretty.

Local Open Scope string_scope.
Local Open Scope list_scope.

(** * Orders *)

(** Python compares tuples lexicographically, SQL's [ORDER BY a, b] compares
    the key columns lexicographically: the first component decides unless it
    is equal on both sides. *)
Definition lexico_le {A B : Type} (RA : relation A) (RB : relation B)
  : relation (A * B) :=
  λ x y, (x.1 ≠ y.1 ∧ RA x.1 y.1) ∨ (x.1 = y.1 ∧ RB x.2 y.2).

Global Instance lexico_le_dec {A B : Type} `{EqDecision A}
    (RA : relation A) (RB : relation B)
    `{!RelDecision RA, !RelDecision RB} : RelDecision (lexico_le RA RB).
Proof. intros x y. unfold lexico_le. apply _. Defined.

(** * The registry *)

(** A service as [fetch_services] hands it on: a dict with four keys. *)
Record Service := mkService {
  service_id : string;
  metric_url : string;
  organization_id : string;
  name : string
}.

Global Instance Service_eq_dec : EqDecision Service.
Proof. solve_decision. Defined.

(** A row of [SELECT service_id, metric_url, organization_id, name]. *)
Definition row : Type := string * string * string * string.

(** [ORDER BY organization_id, service_id]; text is compared byte by byte,
    as Python compares [str] and as the collation "C" does. *)
Definition order_by_key (r : row) : string * string :=
  match r with (sid, _, org, _) => (org, sid) end.

Definition order_by_le : relation row :=
  λ r1 r2, lexico_le String.le String.le (order_by_key r1) (order_by_key r2).

Global Instance order_by_le_dec : RelDecision order_by_le.
Proof. intros r1 r2. unfold order_by_le. apply _. Defined.

(** What the database does when [psycopg2.connect] is called. *)
Inductive Registry :=
  | ConnectFails
  | QueryFails
  | Table (rows : list row).

(** The dict built from one row in the loop of [fetch_services]. *)
Definition service_of_row (r : row) : Service :=
  match r with
  | (sid, url, org, nm) =>
      {| service_id := sid; metric_url := url; organization_id := org; name := nm |}
  end.

(** The tuple [(s['service_id'], s['metric_url'], s['organization_id'],
    s['name'])] of [get_services_hash]. *)
Definition service_tuple (s : Service) : row :=
  (service_id s, metric_url s, organization_id s, name s).

(** Python's order on 4-tuples of [str]. *)
Definition tuple_le : relation row :=
  lexico_le (lexico_le (lexico_le String.le String.le) String.le) String.le.

Global Instance tuple_le_dec : RelDecision tuple_le.
Proof. unfold tuple_le. apply _. Defined.

(** Python's [sorted]: a merge sort; on a total antisymmetric order every
    sorting algorithm returns the same list. *)
Definition sorted (l : list row) : list row := merge_sort tuple_le l.

(** * Exceptions *)

Inductive exn :=
  | TypeError | ValueError | AttributeError | OSError | DatabaseError.

Inductive outcome (A : Type) :=
  | Return (a : A)
  | Raise (e : exn).
Arguments Return {A} a.
Arguments Raise {A} e.

Definition obind {A B : Type} (o : outcome A) (k : A → outcome B) : outcome B :=
  match o with
  | Return a => k a
  | Raise e => Raise e
  end.

(** * [urllib.parse.urlparse], as far as [hostname] and [port] need it

    Modelled on CPython 3.12's [urlsplit] for [str] input; the string is a
    sequence of bytes and only ASCII letters are lower-cased. *)

Definition is_ascii_alpha (c : ascii) : bool :=
  let n := N_of_ascii c in
  ((65 <=? n) && (n <=? 90) || (97 <=? n) && (n <=? 122))%N.

Definition is_ascii_digit (c : ascii) : bool :=
  let n := N_of_ascii c in ((48 <=? n) && (n <=? 57))%N.

(** [scheme_chars]: letters, digits and [+-.]. *)
Definition is_scheme_char (c : ascii) : bool :=
  is_ascii_alpha c || is_ascii_digit c
  || bool_decide (c = "+"%char) || bool_decide (c = "-"%char)
  || bool_decide (c = "."%char).

Definition ascii_lower (c : ascii) : ascii :=
  let n := N_of_ascii c in
  if ((65 <=? n) && (n <=? 90))%N then ascii_of_N (n + 32) else c.

Fixpoint str_map (f : ascii → ascii) (s : string) : string :=
  match s with
  | "" => ""
  | String c s' => String (f c) (str_map f s')
  end.

(** [str.lower] on ASCII text; letters outside ASCII, which Python
    lower-cases too, are left as they are. *)
Definition lower : string → string := str_map ascii_lower.

Fixpoint str_forallb (f : ascii → bool) (s : string) : bool :=
  match s with
  | "" => true
  | String c s' => f c && str_forallb f s'
  end.

Fixpoint str_filter (f : ascii → bool) (s : string) : string :=
  match s with
  | "" => ""
  | String c s' => if f c then String c (str_filter f s') else str_filter f s'
  end.

Fixpoint str_contains (c : ascii) (s : string) : bool :=
  match s with
  | "" => false
  | String c' s' => bool_decide (c' = c) || str_contains c s'
  end.

(** [s.lstrip(chars)] for a set of characters given as a predicate. *)
Fixpoint lstrip (f : ascii → bool) (s : string) : string :=
  match s with
  | "" => ""
  | String c s' => if f c then lstrip f s' else s
  end.

(** [s.partition(c)]: text before the first [c], whether [c] was found, text
    after it. *)
Fixpoint partition (c : ascii) (s : string) : string * bool * string :=
  match s with
  | "" => ("", false, "")
  | String c' s' =>
      if bool_decide (c' = c) then ("", true, s')
      else match partition c s' with
           | (before, found, after) => (String c' before, found, after)
           end
  end.

(** [s.rpartition(c)]: as [partition], on the last [c]; when [c] does not
    occur the whole text is the third component. *)
Fixpoint rpartition (c : ascii) (s : string) : string * bool * string :=
  match s with
  | "" => ("", false, "")
  | String c' s' =>
      match rpartition c s' with
      | (before, true, after) => (String c' before, true, after)
      | (_, false, after) =>
          if bool_decide (c' = c) then ("", true, s')
          else ("", false, String c' after)
      end
  end.

(** [_splitnetloc(url, 2)] once the leading [//] is gone: the text up to the
    first of [/], [?] and [#]. *)
Fixpoint splitnetloc (s : string) : string :=
  match s with
  | "" => ""
  | String c s' =>
      if bool_decide (c = "/"%char) || bool_decide (c = "?"%char)
         || bool_decide (c = "#"%char)
      then "" else String c (splitnetloc s')
  end.

(** [url[2:]] when [url[:2] == '//']. *)
Definition after_double_slash (url : string) : option string :=
  match url with
  | String c1 (String c2 rest) =>
      if bool_decide (c1 = "/"%char) && bool_decide (c2 = "/"%char)
      then Some rest else None
  | _ => None
  end.

(** [_WHATWG_C0_CONTROL_OR_SPACE] and [_UNSAFE_URL_BYTES_TO_REMOVE]. *)
Definition is_c0_control_or_space (c : ascii) : bool := (N_of_ascii c <=? 32)%N.
Definition is_unsafe_url_byte (c : ascii) : bool :=
  bool_decide (c = "009"%char) || bool_decide (c = "010"%char)
  || bool_decide (c = "013"%char).

(** The two attributes of a [ParseResult] that the resolver reads. *)
Record ParseResult := mkParseResult {
  scheme : string;
  netloc : string
}.

(** Decimal value of a string of ASCII digits ([int(port)]). *)
Fixpoint int_of_digits (acc : N) (s : string) : N :=
  match s with
  | "" => acc
  | String c s' => int_of_digits (10 * acc + (N_of_ascii c - 48))%N s'
  end.

(** [ParseResult._hostinfo]. *)
Definition hostinfo (p : ParseResult) : string * option string :=
  match rpartition "@" (netloc p) with
  | (_, _, hostinfo) =>
      let '(host, port) :=
        match partition "[" hostinfo with
        | (_, true, bracketed) =>
            match partition "]" bracketed with
            | (hostname, _, port) =>
                match partition ":" port with
                | (_, _, port) => (hostname, port)
                end
            end
        | (_, false, _) =>
            match partition ":" hostinfo with
            | (hostname, _, port) => (hostname, port)
            end
        end in
      (host, if bool_decide (port = "") then None else Some port)
  end.

(** [ParseResult.hostname]; [None] is Python's [None]. *)
Definition hostname (p : ParseResult) : option string :=
  let host := (hostinfo p).1 in
  if bool_decide (host = "") then None
  else match partition "%" host with
       | (h, percent, zone) =>
           Some (lower h +:+ (if percent then "%" else "") +:+ zone)
       end.

(** [ParseResult.port]: raises [ValueError] on a port that is not a decimal
    number or exceeds 65535. *)
Definition port (p : ParseResult) : outcome (option N) :=
  match (hostinfo p).2 with
  | None => Return None
  | Some port =>
      if str_forallb is_ascii_digit port then
        let n := int_of_digits 0 port in
        if (n <=? 65535)%N then Return (Some n) else Raise ValueError
      else Raise ValueError
  end.

(** * The configuration document *)

(** One entry of [static_configs]; a target is what
    [extract_target_from_url] returned, [None] being Python's [None]. *)
Record StaticConfig := mkStaticConfig {
  targets : list (option string);
  labels : option (list (string * string))
}.

(** One entry of [scrape_configs]; a key the dict does not have is [None]. *)
Record ScrapeConfig := mkScrapeConfig {
  job_name : string;
  scrape_interval : option string;
  metrics_path : option string;
  static_configs : list StaticConfig
}.

Record Config := mkConfig {
  global : list (string * string);
  scrape_configs : list ScrapeConfig
}.

(** [org_services]: a dict keeps its keys in insertion order. *)
Definition org_dict : Type := list (string * list Service).

(** [if org_id not in org_services: org_services[org_id] = []] followed by
    [org_services[org_id].append(service)]. *)
Fixpoint dict_append (d : org_dict) (org_id : string) (service : Service)
  : org_dict :=
  match d with
  | [] => [(org_id, [service])]
  | (k, l) :: d' =>
      if decide (k = org_id) then (k, l ++ [service]) :: d'
      else (k, l) :: dict_append d' org_id service
  end.

(** The loop "Group services by organization". *)
Definition group_by_organization (services : list Service) : org_dict :=
  fold_left (λ d service, dict_append d (organization_id service) service)
            services [].

(** The distinct elements of a list, each at the place of its first
    occurrence. *)
Fixpoint distinct (l : list string) : list string :=
  match l with
  | [] => []
  | x :: l' => x :: filter (λ y, y ≠ x) (distinct l')
  end.

(** The order of [(organization_id, service_id)] on services. *)
Definition service_le : relation Service :=
  λ s1 s2, lexico_le String.le String.le
             (organization_id s1, service_id s1)
             (organization_id s2, service_id s2).

(** The services of one organisation, in the order of the list. *)
Definition services_of (org_id : string) (services : list Service)
  : list Service :=
  filter (λ s, organization_id s = org_id) services.

(** * The world *)

Inductive Signal := SIGTERM | SIGKILL | SIGHUP.

(** What the program did to the outside, and the two assignments to globals
    that the monitoring loop is about, in the order they happened. *)
Inductive Event :=
  | EvConnect
  | EvAssignHash (h : option string)
  | EvReload
  | EvPoll (alive : bool)
  | EvKillpg (sig : Signal)
  | EvKill (sig : Signal)
  | EvSleep (seconds : nat)
  | EvWriteConfig (content : string).

Global Instance Signal_eq_dec : EqDecision Signal.
Proof. solve_decision. Defined.

Global Instance Event_eq_dec : EqDecision Event.
Proof. solve_decision. Defined.

(** What writing the configuration file runs into: [os.makedirs] or [open]
    raise before the file is touched, or [yaml.dump] raises when the file
    already holds a part of the document. *)
Inductive DiskOutcome :=
  | DiskOk
  | MakedirsFails
  | OpenFails
  | DumpFails (partial : string).

(** A [subprocess.Popen] object: once [poll] has seen the process exit it
    keeps the return code and no longer asks the operating system. *)
Record Popen := mkPopen {
  pid : N;
  returncode : option Z
}.

Record World := mkWorld {
  prometheus_process : option Popen;
  last_services_hash : option string;
  config_file : option string;
  now : nat;
  log : list Event
}.

Definition M (A : Type) : Type := World → outcome A * World.

Definition ret {A : Type} (a : A) : M A := λ w, (Return a, w).

Definition raise {A : Type} (e : exn) : M A := λ w, (Raise e, w).

Definition bind {A B : Type} (m : M A) (k : A → M B) : M B :=
  λ w, match m w with
       | (Return a, w') => k a w'
       | (Raise e, w') => (Raise e, w')
       end.

(** [try: m except Exception: h]. *)
Definition try_except {A : Type} (m : M A) (h : M A) : M A :=
  λ w, match m w with
       | (Return a, w') => (Return a, w')
       | (Raise _, w') => h w'
       end.

Notation "'let*' x ':=' m 'in' k" := (bind m (λ x, k))
  (at level 10, x name, m at level 100, k at level 200).
Notation "m ';;' k" := (bind m (λ _, k))
  (at level 100, k at level 200, right associativity).

Definition emit (e : Event) : M unit :=
  λ w, (Return tt,
        {| prometheus_process := prometheus_process w;
           last_services_hash := last_services_hash w;
           config_file := config_file w;
           now := now w;
           log := log w ++ [e] |}).

(** The instant of the next interaction with the outside. *)
Definition tick : M nat :=
  λ w, (Return (now w),
        {| prometheus_process := prometheus_process w;
           last_services_hash := last_services_hash w;
           config_file := config_file w;
           now := S (now w);
           log := log w |}).

Definition get_prometheus_process : M (option Popen) :=
  λ w, (Return (prometheus_process w), w).

Definition set_prometheus_process (p : option Popen) : M unit :=
  λ w, (Return tt,
        {| prometheus_process := p;
           last_services_hash := last_services_hash w;
           config_file := config_file w;
           now := now w;
           log := log w |}).

Definition get_last_services_hash : M (option string) :=
  λ w, (Return (last_services_hash w), w).

Definition set_last_services_hash (h : option string) : M unit :=
  λ w, (Return tt,
        {| prometheus_process := prometheus_process w;
           last_services_hash := h;
           config_file := config_file w;
           now := now w;
           log := log w ++ [EvAssignHash h] |}).

Definition set_config_file (content : string) : M unit :=
  λ w, (Return tt,
        {| prometheus_process := prometheus_process w;
           last_services_hash := last_services_hash w;
           config_file := Some content;
           now := now w;
           log := log w ++ [EvWriteConfig content] |}).

(** The world after [n] more interactions that left the trace [tr]. *)
Definition advance (n : nat) (tr : list Event) (w : World) : World :=
  {| prometheus_process := prometheus_process w;
     last_services_hash := last_services_hash w;
     config_file := config_file w;
     now := n + now w;
     log := log w ++ tr |}.

(** [k] turns of the waiting loop of [stop_prometheus] that found the
    daemon alive. *)
Fixpoint waiting (k : nat) : list Event :=
  match k with
  | 0 => []
  | S k' => EvPoll true :: EvSleep 1 :: waiting k'
  end.

(** The world in which the handle [p] has learnt the return code. *)
Definition exited (p : Popen) (code : Z) (w : World) : World :=
  {| prometheus_process := Some {| pid := pid p; returncode := Some code |};
     last_services_hash := last_services_hash w;
     config_file := config_file w;
     now := now w;
     log := log w |}.

(** The ways [stop_prometheus] ends for a daemon that was running: what
    it did after finding the daemon alive, what it returned, and the handle
    it left. *)
Inductive stop_outcome (p : Popen)
  : list Event → bool → option Popen → Prop :=
  | stop_not_signalled :
      stop_outcome p [] false (Some p)
  | stop_exit_seen (k : nat) :
      k < 10 →
      stop_outcome p
        (EvKillpg SIGTERM :: waiting k ++ [EvPoll false; EvPoll false])
        true None
  | stop_exit_seen_last :
      stop_outcome p
        (EvKillpg SIGTERM :: waiting 10 ++ [EvPoll false]) true None
  | stop_forced :
      stop_outcome p
        (EvKillpg SIGTERM :: waiting 10 ++ [EvPoll true; EvKillpg SIGKILL])
        true None
  | stop_not_forced :
      stop_outcome p
        (EvKillpg SIGTERM :: waiting 10 ++ [EvPoll true]) false (Some p).

(** The list [fetch_services] returns for a state of the database. *)
Definition fetched (r : Registry) : list Service :=
  match r with
  | Table rows => service_of_row <$> merge_sort order_by_le rows
  | ConnectFails | QueryFails => []
  end.

(** How often an event occurs in a trace. *)
Definition occurrences (e : Event) (tr : list Event) : nat :=
  length (filter (λ e', e' = e) tr).

(** * The platform

    What the program is run on: Python's libraries, the settings read from
    the environment when the module is loaded, and the outside, asked at the
    instant of each interaction. *)
Class Platform := mkPlatform {
  (** [str] on a list of 4-tuples *)
  py_str : list row → string;
  (** [hashlib.md5(_.encode()).hexdigest()] *)
  md5_hexdigest : string → string;
  (** [yaml.dump(_, default_flow_style=False, indent=2)] *)
  yaml_dump : Config → string;
  (** [_check_bracketed_host] and [_checknetloc] of [urllib.parse], which
      need the tables of [ipaddress] and [unicodedata]: [false] when they
      raise *)
  check_netloc : string → bool;
  PROMETHEUS_PORT : N;
  MONITOR_INTERVAL : nat;
  (** what the database does when connected to *)
  registry_at : nat → Registry;
  (** what [waitpid] finds when the daemon is polled: its return code,
      [None] while it runs *)
  returncode_at : nat → option Z;
  (** whether [os.getpgid], [os.killpg] and [os.kill] go through *)
  signal_at : nat → bool;
  (** what writing the configuration file runs into *)
  disk_at : nat → DiskOutcome
}.

Section Program.

Context `{Platform}.

(** ** Registry reader *)

(** [None] is Python's [None]; a connection gives access to what the
    database holds at the instant it was opened. *)
Definition get_db_connection : M (option Registry) :=
  let* t := tick in
  emit EvConnect;;
  match registry_at t with
  | ConnectFails => ret None
  | r => ret (Some r)
  end.

(** [cursor.execute(query)] and [cursor.fetchall()]. *)
Definition execute_fetchall (conn : Registry) : M (list row) :=
  match conn with
  | Table rows => ret (merge_sort order_by_le rows)
  | _ => raise DatabaseError
  end.

Definition fetch_services : M (list Service) :=
  let* conn := get_db_connection in
  match conn with
  | None => ret []
  | Some conn =>
      try_except
        (let* services := execute_fetchall conn in
         ret (service_of_row <$> services))
        (ret [])
  end.

(** ** Change detector *)

Definition get_services_hash (services : list Service) : option string :=
  match services with
  | [] => None
  | _ => Some (md5_hexdigest (py_str (sorted (service_tuple <$> services))))
  end.

(** [h[:8]]: [None] is not subscriptable. *)
Definition slice8 (h : option string) : M string :=
  match h with
  | None => raise TypeError
  | Some s => ret (String.substring 0 8 s)
  end.

Definition check_for_service_changes : M (bool * list Service) :=
  let* current_services := fetch_services in
  let current_hash := get_services_hash current_services in
  let* last := get_last_services_hash in
  match last with
  | None =>
      set_last_services_hash current_hash;;
      ret (false, current_services)
  | Some _ =>
      if decide (current_hash ≠ last) then
        (* the f-string of the log line *)
        slice8 last;;
        slice8 current_hash;;
        set_last_services_hash current_hash;;
        ret (true, current_services)
      else ret (false, current_services)
  end.

(** ** Target URL resolver *)

(** [urlparse(url)]: the scheme is split off when the text before the first
    [:] is a letter followed by scheme characters; the network location is
    what follows a leading [//].  Raises [ValueError] on unbalanced brackets
    and when a library check rejects the network location. *)
Definition urlparse (url : string) : outcome ParseResult :=
  let url := lstrip is_c0_control_or_space url in
  let url := str_filter (λ c, negb (is_unsafe_url_byte c)) url in
  let '(scheme, url) :=
    match partition ":" url with
    | (String c before, true, rest) =>
        if is_ascii_alpha c && str_forallb is_scheme_char (String c before)
        then (lower (String c before), rest)
        else ("", url)
    | _ => ("", url)
    end in
  match after_double_slash url with
  | Some rest =>
      let netloc := splitnetloc rest in
      let has_open := str_contains "[" netloc in
      let has_close := str_contains "]" netloc in
      if has_open && negb has_close || has_close && negb has_open
      then Raise ValueError
      else if check_netloc netloc
      then Return {| scheme := scheme; netloc := netloc |}
      else Raise ValueError
  | None => Return {| scheme := scheme; netloc := "" |}
  end.

(** [f"{host}"]. *)
Definition format_host (host : option string) : string :=
  match host with
  | None => "None"
  | Some h => h
  end.

(** The body of the [try] block of [extract_target_from_url]. *)
Definition extract_target (url : string) : outcome (option string) :=
  obind (urlparse url) (λ parsed,
    let host := hostname parsed in
    obind (port parsed) (λ port,
      match port with
      | Some (Npos p) => Return (Some (format_host host +:+ ":" +:+ pretty (Npos p)))
      | _ =>
          if decide (scheme parsed = "https")
          then Return (Some (format_host host +:+ ":443"))
          else if decide (scheme parsed = "http")
          then Return (Some (format_host host +:+ ":80"))
          else Return host
      end)).

(** The result is a [str], or Python's [None] when it is [parsed.hostname]
    and the URL has no host. *)
Definition extract_target_from_url (url : string) : option string :=
  match extract_target url with
  | Return target => target
  | Raise _ => Some url
  end.

(** ** Config synthesiser *)

(** The job appended first: Prometheus scraping itself. *)
Definition self_job : ScrapeConfig :=
  {| job_name := "prometheus";
     scrape_interval := None;
     metrics_path := None;
     static_configs :=
       [ {| targets := [Some ("localhost:" +:+ pretty PROMETHEUS_PORT)];
            labels := None |} ] |}.

(** The body of the loop "Create scrape configs for each organization". *)
Definition org_job (item : string * list Service) : ScrapeConfig :=
  let '(org_id, org_service_list) := item in
  {| job_name := "org_" +:+ org_id;
     scrape_interval := Some "30s";
     metrics_path := Some "/metrics";
     static_configs :=
       [ {| targets :=
              (λ service, extract_target_from_url (metric_url service))
                <$> org_service_list;
            labels := Some [("organization_id", org_id)] |} ] |}.

(** [generate_prometheus_config] after its call of [fetch_services]. *)
Definition config_of_services (services : list Service) : option Config :=
  match services with
  | [] => None
  | _ =>
      Some {| global := [("scrape_interval", "15s");
                         ("evaluation_interval", "15s")];
              scrape_configs :=
                self_job :: (org_job <$> group_by_organization services) |}
  end.

Definition generate_prometheus_config : M (option Config) :=
  let* services := fetch_services in
  ret (config_of_services services).

(** [os.makedirs], [open(_, 'w')] and [yaml.dump]. *)
Definition write_file (config : Config) : M unit :=
  let* t := tick in
  match disk_at t with
  | DiskOk => set_config_file (yaml_dump config)
  | MakedirsFails | OpenFails => raise OSError
  | DumpFails partial => set_config_file partial;; raise OSError
  end.

Definition write_prometheus_config : M bool :=
  try_except
    (let* config := generate_prometheus_config in
     match config with
     | None => ret false
     | Some config => write_file config;; ret true
     end)
    (ret false).

(** ** Process supervisor *)

(** [prometheus_process.poll() is None]. *)
Definition poll_is_None : M bool :=
  let* p := get_prometheus_process in
  match p with
  | None => raise AttributeError
  | Some p =>
      match returncode p with
      | Some _ => emit (EvPoll false);; ret false
      | None =>
          let* t := tick in
          match returncode_at t with
          | None => emit (EvPoll true);; ret true
          | Some code =>
              set_prometheus_process
                (Some {| pid := pid p; returncode := Some code |});;
              emit (EvPoll false);;
              ret false
          end
      end
  end.

(** [prometheus_process and prometheus_process.poll() is None]: the process
    is not polled when there is no handle. *)
Definition process_is_running : M bool :=
  let* p := get_prometheus_process in
  match p with
  | None => ret false
  | Some _ => poll_is_None
  end.

(** [os.killpg(os.getpgid(prometheus_process.pid), sig)]; either call
    raises when the process or its group is gone or not ours. *)
Definition killpg (sig : Signal) : M unit :=
  let* t := tick in
  if signal_at t then emit (EvKillpg sig) else raise OSError.

(** [os.kill(prometheus_process.pid, sig)]. *)
Definition kill (sig : Signal) : M unit :=
  let* t := tick in
  if signal_at t then emit (EvKill sig) else raise OSError.

Definition sleep (seconds : nat) : M unit := emit (EvSleep seconds).

(** [for _ in range(n): if poll() is not None: break; time.sleep(1)]. *)
Fixpoint wait_for_exit (n : nat) : M unit :=
  match n with
  | 0 => ret tt
  | S n' =>
      let* alive := poll_is_None in
      if alive then sleep 1;; wait_for_exit n' else ret tt
  end.

Definition stop_prometheus : M bool :=
  try_except
    (let* running := process_is_running in
     if running then
       killpg SIGTERM;;
       wait_for_exit 10;;
       let* alive := poll_is_None in
       (if alive then killpg SIGKILL else ret tt);;
       set_prometheus_process None;;
       ret true
     else ret true)
    (ret false).

Definition reload_prometheus : M bool :=
  emit EvReload;;
  try_except
    (let* running := process_is_running in
     if negb running then ret false
     else
       let* written := write_prometheus_config in
       if negb written then ret false
       else kill SIGHUP;; ret true)
    (ret false).

(** ** Change monitor loop *)

(** One turn of the [while monitoring_active] loop of [monitor_services]. *)
Definition monitor_cycle : M unit :=
  try_except
    (let* changed := check_for_service_changes in
     (if changed.1 then
        let* running := process_is_running in
        if running then reload_prometheus;; ret tt else ret tt
      else ret tt);;
     sleep MONITOR_INTERVAL)
    (sleep MONITOR_INTERVAL).

(** ** Vocabulary of the statements *)

(** What [prometheus_process and prometheus_process.poll() is None] answers
    in a world when the operating system is asked at instant [t]. *)
Definition running_at (t : nat) (w : World) : bool :=
  match prometheus_process w with
  | None => false
  | Some p =>
      match returncode p, returncode_at t with
      | None, None => true
      | _, _ => false
      end
  end.

(** The job the document is to hold for one organisation: its name, and
    the resolved addresses of the organisation's services. *)
Definition tenant_job (org_id : string) (services : list Service)
  : ScrapeConfig :=
  {| job_name := "org_" +:+ org_id;
     scrape_interval := Some "30s";
     metrics_path := Some "/metrics";
     static_configs :=
       [ {| targets :=
              (λ service, extract_target_from_url (metric_url service))
                <$> services_of org_id services;
            labels := Some [("organization_id", org_id)] |} ] |}.

(** The name of a job with the target lists of its static configurations. *)
Definition job_targets (job : ScrapeConfig)
  : string * list (list (option string)) :=
  (job_name job, targets <$> static_configs job).

End Program.

(** * Further vocabulary *)

(** The events a reload can leave in the trace. *)
Definition reload_event (e : Event) : Prop :=
  match e with
  | EvReload | EvPoll _ | EvConnect | EvWriteConfig _ | EvKill SIGHUP => True
  | _ => False
  end.

(** All the targets of a job, over its static configurations. *)
Definition job_addresses (job : ScrapeConfig) : list (option string) :=
  mjoin (targets <$> static_configs job).

(** The characters of a plain host name: letters, digits, [.] and [-]. *)
Definition is_host_char (c : ascii) : bool :=
  is_ascii_alpha c || is_ascii_digit c
  || bool_decide (c = "."%char) || bool_decide (c = "-"%char).

(** Text that ends the network location of a URL: nothing, or a path, a
    query or a fragment. *)
Definition starts_path (t : string) : bool :=
  match t with
  | "" => true
  | String c _ =>
      bool_decide (c = "/"%char) || bool_decide (c = "?"%char)
      || bool_decide (c = "#"%char)
  end.

(** * The port reclaimer, the start of the daemon and the start-up

    [kill_processes_on_port], [start_prometheus] and the first statements
    of the main block.  They run programs; what they run, and the sleeps
    between, is recorded in a trace of its own beside the [World]. *)

(** What a call of [subprocess.run] comes to. *)
Inductive RunOutcome :=
  | Completed (code : Z) (stdout : string)
  | RunTimeout
  | RunNotFound
  | RunError.

(** The exceptions the reclaimer tells apart; [CalledProcessError], which
    it also names, is never raised by [subprocess.run] without [check]. *)
Inductive failure :=
  | TimeoutExpired
  | FileNotFoundError
  | Python (e : exn).

Inductive result (A : Type) :=
  | Ok (a : A)
  | Fail (e : failure).
Arguments Ok {A} a.
Arguments Fail {A} e.

Inductive Action :=
  | ActRun (argv : list string)
  | ActPopen (argv : list string)
  | ActSleep (seconds : nat).

Global Instance Action_eq_dec : EqDecision Action.
Proof. solve_decision. Defined.

Record Host := mkHost {
  world : World;
  clock : nat;
  actions : list Action
}.

(** The machine the manager runs on: the paths read from the environment
    and what running a program comes to at a given instant. *)
Class Machine := mkMachine {
  PROMETHEUS_BINARY_PATH : string;
  PROMETHEUS_CONFIG_PATH : string;
  PROMETHEUS_DATA_DIR : string;
  run_at : nat → list string → RunOutcome;
  (** the process id of the child, [None] when it cannot be created *)
  popen_at : nat → list string → option N
}.

Definition HM (A : Type) : Type := Host → result A * Host.

Definition hret {A : Type} (a : A) : HM A := λ h, (Ok a, h).

Definition hbind {A B : Type} (m : HM A) (k : A → HM B) : HM B :=
  λ h, match m h with
       | (Ok a, h') => k a h'
       | (Fail e, h') => (Fail e, h')
       end.

Notation "'let+' x ':=' m 'in' k" := (hbind m (λ x, k))
  (at level 10, x name, m at level 100, k at level 200).
Notation "m ';+' k" := (hbind m (λ _, k))
  (at level 100, k at level 200, right associativity).

(** A function of the [World] called from here. *)
Definition lift {A : Type} (m : M A) : HM A :=
  λ h, match m (world h) with
       | (Return a, w') =>
           (Ok a, {| world := w'; clock := clock h; actions := actions h |})
       | (Raise e, w') =>
           (Fail (Python e),
            {| world := w'; clock := clock h; actions := actions h |})
       end.

Definition act (n : nat) (a : list Action) (h : Host) : Host :=
  {| world := world h; clock := n + clock h; actions := actions h ++ a |}.

(** [time.sleep(seconds)]. *)
Definition time_sleep (seconds : nat) : HM unit :=
  λ h, (Ok tt, act 0 [ActSleep seconds] h).

(** Python's [str.isspace] on ASCII. *)
Definition is_space (c : ascii) : bool :=
  let n := N_of_ascii c in
  ((9 <=? n) && (n <=? 13) || (28 <=? n) && (n <=? 32))%N.

(** [s.rstrip()] for a set of characters given as a predicate. *)
Fixpoint rstrip (f : ascii → bool) (s : string) : string :=
  match s with
  | "" => ""
  | String c s' =>
      match rstrip f s' with
      | "" => if f c then "" else String c ""
      | r => String c r
      end
  end.

(** [s.strip()]. *)
Definition strip (s : string) : string := rstrip is_space (lstrip is_space s).

(** [s.split(d)] for a one-character separator. *)
Fixpoint split (d : ascii) (s : string) : list string :=
  match s with
  | "" => [""]
  | String c s' =>
      if bool_decide (c = d) then "" :: split d s'
      else match split d s' with
           | [] => [String c ""]
           | word :: words => String c word :: words
           end
  end.

(** [needle in hay]. *)
Fixpoint str_in (needle hay : string) : bool :=
  String.prefix needle hay
  || match hay with
     | "" => false
     | String _ hay' => str_in needle hay'
     end.

(** The seconds slept and the programs run in a trace. *)
Fixpoint slept (tr : list Action) : nat :=
  match tr with
  | [] => 0
  | ActSleep seconds :: tr' => seconds + slept tr'
  | _ :: tr' => slept tr'
  end.

Fixpoint commands (tr : list Action) : nat :=
  match tr with
  | [] => 0
  | ActRun _ :: tr' => S (commands tr')
  | _ :: tr' => commands tr'
  end.

(** The commands of the children created in a trace. *)
Fixpoint children (tr : list Action) : list (list string) :=
  match tr with
  | [] => []
  | ActPopen argv :: tr' => argv :: children tr'
  | _ :: tr' => children tr'
  end.

Section Launch.

Context `{Platform} `{Machine}.

(** [subprocess.run(argv, ...)]: the return code and the captured
    output. *)
Definition subprocess_run (argv : list string) : HM (Z * string) :=
  λ h, match run_at (clock h) argv with
       | Completed code stdout => (Ok (code, stdout), act 1 [ActRun argv] h)
       | RunTimeout => (Fail TimeoutExpired, act 1 [ActRun argv] h)
       | RunNotFound => (Fail FileNotFoundError, act 1 [ActRun argv] h)
       | RunError => (Fail (Python OSError), act 1 [ActRun argv] h)
       end.

(** [subprocess.Popen(argv, ...)]; the trace notes the children that
    were created. *)
Definition subprocess_Popen (argv : list string) : HM Popen :=
  λ h, match popen_at (clock h) argv with
       | Some child =>
           (Ok {| pid := child; returncode := None |},
            act 1 [ActPopen argv] h)
       | None => (Fail (Python OSError), act 1 [] h)
       end.

(** The body of the [try] in the loop over the process ids. *)
Definition kill_pid (pid : string) : HM unit :=
  subprocess_run ["kill"; "-TERM"; pid];+
  time_sleep 2;+
  let+ check_result := subprocess_run ["kill"; "-0"; pid] in
  if decide (check_result.1 = 0%Z)
  then subprocess_run ["kill"; "-KILL"; pid];+ hret tt
  else hret tt.

(** The [try] with its handler of [TimeoutExpired]. *)
Definition kill_pid_guarded (pid : string) : HM unit :=
  λ h, match kill_pid pid h with
       | (Fail TimeoutExpired, h') => (Ok tt, h')
       | outcome => outcome
       end.

(** [for pid in pids: if pid.strip(): ...]. *)
Fixpoint kill_pids (pids : list string) : HM unit :=
  match pids with
  | [] => hret tt
  | pid :: pids' =>
      (if bool_decide (strip pid ≠ "") then kill_pid_guarded (strip pid)
       else hret tt);+
      kill_pids pids'
  end.

(** The handler of [FileNotFoundError]. *)
Definition netstat_fallback (port : N) : HM bool :=
  λ h, match subprocess_run ["netstat"; "-tlnp"] h with
       | (Ok (_, stdout), h') =>
           (Ok (negb (str_in (":" +:+ pretty port +:+ " ") stdout)), h')
       | (Fail _, h') => (Ok false, h')
       end.

Definition kill_processes_on_port (port : N) : HM bool :=
  λ h, match
         (let+ lsof := subprocess_run ["lsof"; "-ti"; ":" +:+ pretty port] in
          if bool_decide (lsof.1 = 0%Z) && bool_decide (strip lsof.2 ≠ "")
          then
            kill_pids (split "010" (strip lsof.2));+
            time_sleep 3;+
            hret true
          else hret true) h
       with
       | (Ok freed, h') => (Ok freed, h')
       | (Fail TimeoutExpired, h') => (Ok false, h')
       | (Fail FileNotFoundError, h') => netstat_fallback port h'
       | (Fail (Python _), h') => (Ok false, h')
       end.

(** [cmd] of [start_prometheus]. *)
Definition prometheus_command : list string :=
  [ PROMETHEUS_BINARY_PATH;
    "--config.file=" +:+ PROMETHEUS_CONFIG_PATH;
    "--storage.tsdb.path=" +:+ PROMETHEUS_DATA_DIR;
    "--web.enable-lifecycle";
    "--web.listen-address=0.0.0.0:" +:+ pretty PROMETHEUS_PORT ].

(** [start_prometheus] from the clean-up of the port on: what it does
    when the daemon is not already running. *)
Definition launch : HM bool :=
  (* the answer of the reclaimer only decides on a warning *)
  kill_processes_on_port PROMETHEUS_PORT;+
  let+ written := lift write_prometheus_config in
  if negb written then hret false
  else
    let+ process := subprocess_Popen prometheus_command in
    lift (set_prometheus_process (Some process));+
    time_sleep 2;+
    let+ alive := lift poll_is_None in
    if alive then hret true else hret false.

Definition start_prometheus : HM bool :=
  λ h, match
         (let+ running := lift process_is_running in
          if running then hret true else launch) h
       with
       | (Ok started, h') => (Ok started, h')
       | (Fail _, h') => (Ok false, h')
       end.

(** The main block up to the start of the monitoring thread. *)
Definition startup : M unit :=
  write_prometheus_config;;
  let* initial_services := fetch_services in
  set_last_services_hash (get_services_hash initial_services).

(** The first [n] turns of the loop of [monitor_services]. *)
Fixpoint monitor_cycles (n : nat) : M unit :=
  match n with
  | 0 => ret tt
  | S n' => monitor_cycle;; monitor_cycles n'
  end.

(** What a turn of the loop leaves in the trace when the fingerprint it
    computes is the stored one. *)
Definition quiet_turn (fingerprint : option string) : list Event :=
  match fingerprint with
  | Some _ => [EvConnect; EvSleep MONITOR_INTERVAL]
  | None => [EvConnect; EvAssignHash None; EvSleep MONITOR_INTERVAL]
  end.

(** The command that looks for the processes on a port, and the lines
    of its output that the reclaimer goes through. *)
Definition lsof_command (port : N) : list string :=
  ["lsof"; "-ti"; ":" +:+ pretty port].

Definition lsof_lines (port : N) (t : nat) : list string :=
  match run_at t (lsof_command port) with
  | Completed code stdout =>
      if bool_decide (code = 0%Z) && bool_decide (strip stdout ≠ "")
      then split "010" (strip stdout) else []
  | _ => []
  end.

(** Programs are always there and nothing but a timeout stops them. *)
Definition programs_run : Prop :=
  ∀ t argv, run_at t argv ≠ RunNotFound ∧ run_at t argv ≠ RunError.

(** What is run for one process id: it ends after the first signal when
    that times out, after the probe when the probe times out or finds the
    process gone, and with the kill signal otherwise. *)
Inductive pid_steps (pid : string) : list Action → Prop :=
  | steps_term :
      pid_steps pid [ActRun ["kill"; "-TERM"; pid]]
  | steps_probe :
      pid_steps pid
        [ActRun ["kill"; "-TERM"; pid]; ActSleep 2;
         ActRun ["kill"; "-0"; pid]]
  | steps_kill :
      pid_steps pid
        [ActRun ["kill"; "-TERM"; pid]; ActSleep 2;
         ActRun ["kill"; "-0"; pid]; ActRun ["kill"; "-KILL"; pid]].

(** What is run for the lines of the output of [lsof], blank lines being
    skipped. *)
Inductive pids_steps : list string → list Action → Prop :=
  | steps_nil : pids_steps [] []
  | steps_blank (line : string) (lines : list string) (tr : list Action) :
      strip line = "" → pids_steps lines tr → pids_steps (line :: lines) tr
  | steps_pid (line : string) (lines : list string)
      (tr1 tr : list Action) :
      strip line ≠ "" →
      pid_steps (strip line) tr1 →
      pids_steps lines tr →
      pids_steps (line :: lines) (tr1 ++ tr).

End Launch.

(** * Sample platforms and worlds

    Stand-ins for the libraries and a fixed behaviour of the outside, on
    which the statements below are run. *)

Definition example_str (rows : list row) : string :=
  String.concat ";"
    ((λ r : row, match r with
                 | (sid, url, org, nm) =>
                     sid +:+ "," +:+ url +:+ "," +:+ org +:+ "," +:+ nm
                 end) <$> rows).

Definition example_platform (registry : Registry) (code : option Z)
    (signals : bool) (disk : DiskOutcome) : Platform :=
  {| py_str := example_str;
     md5_hexdigest := λ text, "md5:" +:+ text;
     yaml_dump := λ _, "scrape_configs: ...";
     check_netloc := λ _, true;
     PROMETHEUS_PORT := 9090;
     MONITOR_INTERVAL := 30;
     registry_at := λ _, registry;
     returncode_at := λ _, code;
     signal_at := λ _, signals;
     disk_at := λ _, disk |}.

Definition example_world (process : option Popen) (hash : option string)
  : World :=
  {| prometheus_process := process;
     last_services_hash := hash;
     config_file := Some "scrape_configs: old";
     now := 0;
     log := [] |}.

Definition row_A : row := ("A", "https://a.com/m", "t1", "Web API").
Definition row_B : row := ("B", "http://b.com:81/m", "t1", "Database").
Definition row_C : row := ("C", "https://c.com/m", "t2", "Balancer").

Definition daemon : Popen := {| pid := 4242; returncode := None |}.

(** A machine on which [lsof] lists the processes [pids] and every other
    program ends with the return code [code]. *)
Definition example_machine (lsof_output : string) (code : Z)
    (child : option N) : Machine :=
  {| PROMETHEUS_BINARY_PATH := "prometheus";
     PROMETHEUS_CONFIG_PATH := "./prometheus.yml";
     PROMETHEUS_DATA_DIR := "./prometheus_data";
     run_at := λ _ argv,
       if decide (argv = ["lsof"; "-ti"; ":9090"])
       then Completed 0 lsof_output
       else Completed code "";
     popen_at := λ _ _, child |}.

(** A machine without [lsof], on which [netstat] prints [output]. *)
Definition example_machine_without_lsof (output : string) : Machine :=
  {| PROMETHEUS_BINARY_PATH := "prometheus";
     PROMETHEUS_CONFIG_PATH := "./prometheus.yml";
     PROMETHEUS_DATA_DIR := "./prometheus_data";
     run_at := λ _ argv,
       if decide (argv = ["lsof"; "-ti"; ":9090"])
       then RunNotFound
       else Completed 0 output;
     popen_at := λ _ _, None |}.

Definition example_host (w : World) : Host :=
  {| world := w; clock := 0; actions := [] |}.

(** * Properties *)

(** ** Orders *)

Global Instance lexico_le_refl {A B : Type} (RA : relation A) (RB : relation B)
    `{!Reflexive RB} : Reflexive (lexico_le RA RB).
Proof. intros [a b]. right. split; [done | simpl; reflexivity]. Qed.

Global Instance lexico_le_trans {A B : Type} (RA : relation A) (RB : relation B)
    `{!Transitive RA, !AntiSymm (=) RA, !Transitive RB} :
  Transitive (lexico_le RA RB).
Proof.
  intros [a1 b1] [a2 b2] [a3 b3]. unfold lexico_le. simpl.
  intros [[Hne12 H12] | [-> H12]] [[Hne23 H23] | [-> H23]].
  - left. split; [| by etrans].
    intros ->. apply Hne12. by apply (anti_symm RA).
  - left. done.
  - left. done.
  - right. split; [done | by etrans].
Qed.

Global Instance lexico_le_antisym {A B : Type} (RA : relation A) (RB : relation B)
    `{!AntiSymm (=) RA, !AntiSymm (=) RB} : AntiSymm (=) (lexico_le RA RB).
Proof.
  intros [a1 b1] [a2 b2]. unfold lexico_le. simpl.
  intros [[Hne H12] | [-> H12]] [[Hne' H21] | [Heq H21]].
  - destruct Hne. by apply (anti_symm RA).
  - by destruct Hne.
  - by destruct Hne'.
  - f_equal. by apply (anti_symm RB).
Qed.

Global Instance lexico_le_total {A B : Type} `{EqDecision A}
    (RA : relation A) (RB : relation B)
    `{!Total RA, !Total RB} : Total (lexico_le RA RB).
Proof.
  intros [a1 b1] [a2 b2]. unfold lexico_le. simpl.
  destruct (decide (a1 = a2)) as [-> | Hne].
  - destruct (total RB b1 b2); [left | right]; right; done.
  - destruct (total RA a1 a2); [left | right]; left; split; congruence.
Qed.

Global Instance order_by_le_trans : Transitive order_by_le.
Proof. intros r1 r2 r3. unfold order_by_le. apply transitivity. Qed.

Global Instance order_by_le_total : Total order_by_le.
Proof. intros r1 r2. unfold order_by_le. apply total, _. Qed.

Global Instance tuple_le_trans : Transitive tuple_le.
Proof. unfold tuple_le. apply _. Qed.

Global Instance tuple_le_antisym : AntiSymm (=) tuple_le.
Proof. unfold tuple_le. apply _. Qed.

Global Instance tuple_le_total : Total tuple_le.
Proof. unfold tuple_le. apply _. Qed.

Lemma sorted_Permutation (l1 l2 : list row) :
  l1 ≡ₚ l2 → sorted l1 = sorted l2.
Proof.
  intros Hp. unfold sorted.
  apply (Sorted_unique tuple_le).
  - apply (Sorted_merge_sort tuple_le).
  - apply (Sorted_merge_sort tuple_le).
  - by rewrite !merge_sort_Permutation.
Qed.

(** ** Grouping by organisation *)

Lemma elem_of_distinct (l : list string) (x : string) :
  x ∈ distinct l ↔ x ∈ l.
Proof.
  induction l as [| a l IH]; simpl; [done |].
  rewrite !elem_of_cons, list_elem_of_filter, IH.
  destruct (decide (x = a)); tauto.
Qed.

Lemma NoDup_distinct (l : list string) : NoDup (distinct l).
Proof.
  induction l as [| a l IH]; simpl; [constructor |].
  apply NoDup_cons. split.
  - rewrite list_elem_of_filter. tauto.
  - by apply NoDup_filter.
Qed.

Lemma distinct_snoc (l : list string) (x : string) :
  distinct (l ++ [x]) = if decide (x ∈ l) then distinct l else distinct l ++ [x].
Proof.
  induction l as [| a l IH]; simpl.
  - destruct (decide (x ∈ [])) as [Hin | _]; [by apply elem_of_nil in Hin | done].
  - rewrite IH.
    destruct (decide (x ∈ l)) as [Hin | Hnin];
      destruct (decide (x ∈ a :: l)) as [Hin' | Hnin'];
      rewrite ?elem_of_cons in *; try tauto.
    + rewrite filter_app, filter_singleton by exact [].
      destruct Hin' as [-> | ?]; [| tauto].
      rewrite decide_False by tauto. by rewrite app_nil_r.
    + rewrite filter_app, filter_singleton by exact [].
      rewrite decide_True by tauto. done.
Qed.

(** Appending to the list of a key leaves the other entries alone. *)
Lemma dict_append_present (F : string → list Service) (ks : list string)
    (k : string) (s : Service) :
  NoDup ks → k ∈ ks →
  dict_append ((λ k', (k', F k')) <$> ks) k s
  = (λ k', (k', if decide (k' = k) then F k' ++ [s] else F k')) <$> ks.
Proof.
  induction ks as [| k0 ks IH]; intros Hnd Hin.
  - by apply elem_of_nil in Hin.
  - apply NoDup_cons in Hnd as [Hk0 Hnd]. simpl.
    destruct (decide (k0 = k)) as [-> | Hne].
    + f_equal. apply list_fmap_ext. intros i k' Hk'.
      rewrite decide_False; [done |].
      intros ->. apply Hk0. by eapply list_elem_of_lookup_2.
    + f_equal. apply IH; [done |].
      apply elem_of_cons in Hin as [-> |]; done.
Qed.

(** A key that is not there yet goes to the end. *)
Lemma dict_append_absent (d : org_dict) (k : string) (s : Service) :
  k ∉ d.*1 → dict_append d k s = d ++ [(k, [s])].
Proof.
  induction d as [| [k0 l] d IH]; simpl; intros Hnin; [done |].
  apply not_elem_of_cons in Hnin as [Hne Hnin].
  rewrite decide_False by done. f_equal. by apply IH.
Qed.

Lemma group_by_organization_snoc (services : list Service) (s : Service) :
  group_by_organization (services ++ [s])
  = dict_append (group_by_organization services) (organization_id s) s.
Proof. unfold group_by_organization. by rewrite fold_left_app. Qed.

(** The dict has the organisations in first-seen order, each with its
    services in the order of the list. *)
Lemma group_by_organization_spec (services : list Service) :
  group_by_organization services
  = (λ k, (k, services_of k services))
      <$> distinct (organization_id <$> services).
Proof.
  induction services as [| s services IH] using rev_ind; [done |].
  rewrite group_by_organization_snoc, IH, fmap_app. simpl.
  rewrite distinct_snoc.
  destruct (decide (organization_id s ∈ organization_id <$> services))
    as [Hin | Hnin].
  - rewrite dict_append_present;
      [| apply NoDup_distinct | by apply elem_of_distinct].
    apply list_fmap_ext. intros i k Hk. f_equal.
    unfold services_of. rewrite filter_app, filter_singleton by exact [].
    destruct (decide (k = organization_id s)) as [-> | Hne].
    + by rewrite decide_True.
    + rewrite decide_False by done. by rewrite app_nil_r.
  - rewrite dict_append_absent.
    2:{ rewrite <- list_fmap_compose. simpl.
        rewrite list_fmap_id, elem_of_distinct. done. }
    rewrite fmap_app. simpl. f_equal.
    + apply list_fmap_ext. intros i k Hk. f_equal.
      unfold services_of. rewrite filter_app, filter_singleton by exact [].
      rewrite decide_False; [by rewrite app_nil_r |].
      intros Heq. apply Hnin. rewrite Heq.
      apply elem_of_distinct. by eapply list_elem_of_lookup_2.
    + do 2 f_equal. unfold services_of.
      rewrite filter_app, filter_singleton by exact [].
      rewrite decide_True by done.
      replace (filter (λ s0, organization_id s0 = organization_id s) services)
        with (@nil Service); [done |].
      symmetry. apply elem_of_nil_inv. intros x Hx.
      apply list_elem_of_filter in Hx as [Hx1 Hx2].
      apply Hnin. rewrite <- Hx1. by apply list_elem_of_fmap_2.
Qed.


(** ** What the query returns *)

Lemma NoDup_fmap_eq {A B : Type} (f : A → B) (l : list A) (x y : A) :
  NoDup (f <$> l) → x ∈ l → y ∈ l → f x = f y → x = y.
Proof.
  induction l as [| a l IH]; intros Hnd Hx Hy Heq.
  - by apply elem_of_nil in Hx.
  - rewrite fmap_cons in Hnd. apply NoDup_cons in Hnd as [Ha Hnd].
    apply elem_of_cons in Hx as [-> | Hx]; apply elem_of_cons in Hy as [-> | Hy].
    + done.
    + destruct Ha. rewrite Heq. by apply list_elem_of_fmap_2.
    + destruct Ha. rewrite <- Heq. by apply list_elem_of_fmap_2.
    + by apply IH.
Qed.

Lemma StronglySorted_filter {A : Type} (R : relation A) (P : A → Prop)
    `{!∀ x, Decision (P x)} (l : list A) :
  StronglySorted R l → StronglySorted R (filter P l).
Proof.
  induction 1 as [| x l Hl IH Hx]; [constructor |].
  rewrite filter_cons. destruct (decide (P x)); [| done].
  constructor; [done |].
  apply Forall_forall. intros y Hy.
  apply list_elem_of_filter in Hy as [_ Hy].
  rewrite Forall_forall in Hx. by apply Hx.
Qed.

(** The rows come back sorted by [(organization_id, service_id)]. *)
Lemma fetched_sorted (rows : list row) :
  StronglySorted service_le (fetched (Table rows)).
Proof.
  simpl. apply (StronglySorted_fmap _ order_by_le).
  - intros [[[sid1 url1] org1] nm1] [[[sid2 url2] org2] nm2] Hle. exact Hle.
  - apply (StronglySorted_merge_sort order_by_le).
Qed.

(** A table whose rows differ in [(organization_id, service_id)] comes back
    in one order only, whatever order the database keeps it in. *)
Lemma fetched_Permutation (rows rows' : list row) :
  NoDup (order_by_key <$> rows) →
  rows' ≡ₚ rows →
  fetched (Table rows') = fetched (Table rows).
Proof.
  intros Hnd Hp. simpl. f_equal.
  apply (StronglySorted_unique_strong order_by_le).
  - intros r1 r2 Hr1 Hr2 H12 H21.
    rewrite merge_sort_Permutation in Hr1, Hr2. rewrite Hp in Hr1.
    apply (NoDup_fmap_eq order_by_key rows); [done.. |].
    unfold order_by_le in *.
    by apply (anti_symm (lexico_le String.le String.le)).
  - apply (StronglySorted_merge_sort order_by_le).
  - apply (StronglySorted_merge_sort order_by_le).
  - by rewrite !merge_sort_Permutation.
Qed.

(** ** Traces *)

Lemma occurrences_nil (e : Event) : occurrences e [] = 0.
Proof. reflexivity. Qed.

Lemma occurrences_cons (e e' : Event) (tr : list Event) :
  occurrences e (e' :: tr)
  = (if decide (e' = e) then 1 else 0) + occurrences e tr.
Proof.
  unfold occurrences. rewrite filter_cons.
  destruct (decide (e' = e)); reflexivity.
Qed.

Lemma occurrences_app (e : Event) (tr1 tr2 : list Event) :
  occurrences e (tr1 ++ tr2) = occurrences e tr1 + occurrences e tr2.
Proof. unfold occurrences. by rewrite filter_app, length_app. Qed.

(** ** Fingerprint, resolver and synthesiser *)

Section Properties.

Context `{Platform}.

(** C4: two lists of services that hold the same
    [(service_id, metric_url, organization_id, name)] tuples, in whatever
    order, have the same fingerprint. *)
Theorem get_services_hash_order_independent (T1 T2 : list Service) :
  service_tuple <$> T1 ≡ₚ service_tuple <$> T2 →
  get_services_hash T1 = get_services_hash T2.
Proof.
  intros Hp. destruct T1 as [| a T1], T2 as [| b T2].
  - done.
  - by apply Permutation_nil_cons in Hp.
  - symmetry in Hp. by apply Permutation_nil_cons in Hp.
  - unfold get_services_hash. do 3 f_equal. by apply sorted_Permutation.
Qed.

(** What [extract_target_from_url] returns, by what the parser found. *)
Lemma extract_target_from_url_cases (url : string) :
  match urlparse url with
  | Raise _ => extract_target_from_url url = Some url
  | Return parsed =>
      match port parsed with
      | Raise _ => extract_target_from_url url = Some url
      | Return (Some (Npos p)) =>
          extract_target_from_url url
          = Some (format_host (hostname parsed) +:+ ":" +:+ pretty (Npos p))
      | Return _ =>
          extract_target_from_url url
          = if decide (scheme parsed = "https")
            then Some (format_host (hostname parsed) +:+ ":443")
            else if decide (scheme parsed = "http")
            then Some (format_host (hostname parsed) +:+ ":80")
            else hostname parsed
      end
  end.
Proof.
  unfold extract_target_from_url, extract_target.
  destruct (urlparse url) as [parsed | e]; simpl; [| done].
  destruct (port parsed) as [[[| p] |] | e]; simpl; try done;
    repeat case_decide; done.
Qed.

Lemma scrape_configs_of_services (services : list Service) :
  self_job :: (org_job <$> group_by_organization services)
  = self_job :: ((λ org_id, tenant_job org_id services)
                   <$> distinct (organization_id <$> services)).
Proof.
  f_equal. rewrite group_by_organization_spec, <- list_fmap_compose. done.
Qed.

Lemma extract_target_a : check_netloc "a.com" = true →
  extract_target_from_url "https://a.com/m" = Some "a.com:443".
Proof.
  destruct H. simpl. intros Hok.
  unfold extract_target_from_url, extract_target, urlparse. simpl check_netloc.
  vm_compute. vm_compute in Hok. rewrite Hok. reflexivity.
Qed.

Lemma extract_target_b : check_netloc "b.com:81" = true →
  extract_target_from_url "http://b.com:81/m" = Some "b.com:81".
Proof.
  destruct H. simpl. intros Hok.
  unfold extract_target_from_url, extract_target, urlparse. simpl check_netloc.
  vm_compute. vm_compute in Hok. rewrite Hok. reflexivity.
Qed.

Lemma extract_target_c : check_netloc "c.com" = true →
  extract_target_from_url "https://c.com/m" = Some "c.com:443".
Proof.
  destruct H. simpl. intros Hok.
  unfold extract_target_from_url, extract_target, urlparse. simpl check_netloc.
  vm_compute. vm_compute in Hok. rewrite Hok. reflexivity.
Qed.

(** C5: for a list of services that is not empty the document starts with
    the job of Prometheus itself, whose one target is
    [localhost:PROMETHEUS_PORT], followed by one job [org_<id>] for each
    distinct organisation, holding the resolved addresses of the
    organisation's services and the label [organization_id]; the three
    services of the scenario give three jobs, [org_t1] with [a.com:443] and
    [b.com:81] and [org_t2] with [c.com:443]. *)
Theorem config_of_services_jobs (services : list Service) (nA nB nC : string) :
  services ≠ [] →
  check_netloc "a.com" = true →
  check_netloc "b.com:81" = true →
  check_netloc "c.com" = true →
  (∃ config,
     config_of_services services = Some config
     ∧ scrape_configs config
       = self_job :: ((λ org_id, tenant_job org_id services)
                        <$> distinct (organization_id <$> services))
     ∧ job_targets self_job
       = ("prometheus", [[Some ("localhost:" +:+ pretty PROMETHEUS_PORT)]])
     ∧ NoDup (distinct (organization_id <$> services))
     ∧ (∀ org_id, org_id ∈ distinct (organization_id <$> services)
                  ↔ ∃ s, s ∈ services ∧ organization_id s = org_id)
     ∧ (∀ org_id,
          job_name (tenant_job org_id services) = "org_" +:+ org_id
          ∧ ∃ addresses,
              static_configs (tenant_job org_id services)
              = [ {| targets := addresses;
                     labels := Some [("organization_id", org_id)] |} ]
              ∧ addresses
                = (λ s, extract_target_from_url (metric_url s))
                    <$> services_of org_id services))
  ∧ (∃ config,
       config_of_services
         [ mkService "A" "https://a.com/m" "t1" nA;
           mkService "B" "http://b.com:81/m" "t1" nB;
           mkService "C" "https://c.com/m" "t2" nC ]
       = Some config
       ∧ length (scrape_configs config) = 3
       ∧ job_targets <$> tail (scrape_configs config)
         = [ ("org_t1", [[Some "a.com:443"; Some "b.com:81"]]);
             ("org_t2", [[Some "c.com:443"]]) ]).
Proof.
  intros Hne Ha Hb Hc. split.
  - destruct services as [| s services]; [done |].
    eexists. split; [reflexivity |]. simpl scrape_configs.
    split; [apply scrape_configs_of_services |].
    split; [reflexivity |].
    split; [apply NoDup_distinct |].
    split.
    + intros org_id. rewrite elem_of_distinct, list_elem_of_fmap.
      split; intros (s' & ? & ?); exists s'; done.
    + intros org_id. split; [reflexivity |]. eexists. split; reflexivity.
  - assert (group_by_organization
              [ mkService "A" "https://a.com/m" "t1" nA;
                mkService "B" "http://b.com:81/m" "t1" nB;
                mkService "C" "https://c.com/m" "t2" nC ]
            = [ ("t1", [ mkService "A" "https://a.com/m" "t1" nA;
                         mkService "B" "http://b.com:81/m" "t1" nB ]);
                ("t2", [ mkService "C" "https://c.com/m" "t2" nC ]) ]) as Hg
      by (vm_compute; reflexivity).
    unfold config_of_services. rewrite Hg.
    eexists. split; [reflexivity |]. split; [reflexivity |].
    unfold job_targets. simpl.
    rewrite extract_target_a, extract_target_b, extract_target_c by done.
    reflexivity.
Qed.

End Properties.

(** ** Registry reader and change detector *)

Section Monitoring.

Context `{Platform}.

Lemma fetch_services_eq (w : World) :
  fetch_services w
  = (Return (fetched (registry_at (now w))), advance 1 [EvConnect] w).
Proof.
  unfold fetch_services, get_db_connection, bind, tick, emit, try_except,
    execute_fetchall, ret, raise, advance, fetched.
  simpl. destruct (registry_at (now w)); reflexivity.
Qed.

Lemma generate_prometheus_config_eq (w : World) :
  generate_prometheus_config w
  = (Return (config_of_services (fetched (registry_at (now w)))),
     advance 1 [EvConnect] w).
Proof.
  unfold generate_prometheus_config, bind. rewrite fetch_services_eq. done.
Qed.

(** [check_for_service_changes], case by case. *)
Lemma check_for_service_changes_eq (w : World) :
  let services := fetched (registry_at (now w)) in
  let w1 := advance 1 [EvConnect] w in
  check_for_service_changes w
  = match last_services_hash w, get_services_hash services with
    | None, h => (Return (false, services), (set_last_services_hash h w1).2)
    | Some F, None => (Raise TypeError, w1)
    | Some F, Some F' =>
        if decide (F' = F) then (Return (false, services), w1)
        else (Return (true, services),
              (set_last_services_hash (Some F') w1).2)
    end.
Proof.
  simpl. unfold check_for_service_changes, bind.
  rewrite fetch_services_eq. unfold get_last_services_hash. simpl.
  destruct (last_services_hash w) as [F |]; [| done].
  destruct (get_services_hash _) as [F' |].
  - destruct (decide (F' = F)) as [-> | Hne].
    + rewrite decide_False; [done | intros Hc; by apply Hc].
    + rewrite decide_True by congruence. done.
  - rewrite decide_True by done. done.
Qed.

(** C2, amended: [fetch_services] never raises; it returns the rows of the
    table in the order of the query, and the empty list when the connection
    or the query fails, which is also what it returns for an empty table. *)
Theorem fetch_services_never_raises (w : World) :
  ∃ services,
    (fetch_services w).1 = Return services
    ∧ match registry_at (now w) with
      | Table rows =>
          services = service_of_row <$> merge_sort order_by_le rows
          ∧ services ≡ₚ service_of_row <$> rows
          ∧ (rows = [] → services = [])
      | ConnectFails | QueryFails => services = []
      end.
Proof.
  rewrite fetch_services_eq. simpl. eexists. split; [reflexivity |].
  destruct (registry_at (now w)) as [| | rows]; simpl; [done | done |].
  split; [done |]. split.
  - by rewrite merge_sort_Permutation.
  - by intros ->.
Qed.

(** C3: with no stored fingerprint the answer is "no change" whatever the
    registry holds, and the fingerprint of what it holds is stored as the
    baseline; with a stored fingerprint the answer is "no change" when the
    new fingerprint equals it, and the stored one stays; the answer is
    "change" when the new fingerprint is a different one, which is then
    stored. *)
Theorem check_for_service_changes_by_equality (w : World)
    (services : list Service) :
  (fetch_services w).1 = Return services →
  (last_services_hash w = None →
     ∃ w',
       check_for_service_changes w = (Return (false, services), w')
       ∧ last_services_hash w' = get_services_hash services
       ∧ log w'
         = log w ++ [EvConnect; EvAssignHash (get_services_hash services)])
  ∧ (∀ F, last_services_hash w = Some F →
          get_services_hash services = Some F →
          ∃ w',
            check_for_service_changes w = (Return (false, services), w')
            ∧ last_services_hash w' = Some F
            ∧ log w' = log w ++ [EvConnect])
  ∧ (∀ F1 F2, last_services_hash w = Some F1 →
              get_services_hash services = Some F2 →
              F1 ≠ F2 →
              ∃ w',
                check_for_service_changes w = (Return (true, services), w')
                ∧ last_services_hash w' = Some F2
                ∧ log w' = log w ++ [EvConnect; EvAssignHash (Some F2)]).
Proof.
  rewrite fetch_services_eq. simpl. intros [= <-].
  pose proof (check_for_service_changes_eq w) as Heq. simpl in Heq.
  rewrite Heq. clear Heq. split; [| split].
  - intros Hlast. rewrite Hlast. eexists. split; [reflexivity |].
    simpl. by rewrite <- app_assoc.
  - intros F Hlast Hhash. rewrite Hlast, Hhash, decide_True by done.
    eexists. split; [reflexivity |]. done.
  - intros F1 F2 Hlast Hhash Hne.
    rewrite Hlast, Hhash, decide_False by done.
    eexists. split; [reflexivity |]. simpl. by rewrite <- app_assoc.
Qed.

(** C10: with a stored fingerprint and an empty list of services,
    [check_for_service_changes] raises [TypeError] on [current_hash[:8]]
    before it assigns [last_services_hash]; the monitoring loop absorbs the
    exception, so the turn ends with the stored fingerprint unchanged and
    without a reload. *)
Theorem check_for_service_changes_empty_raises (w : World) (F : string) :
  last_services_hash w = Some F →
  (fetch_services w).1 = Return [] →
  (∃ w', check_for_service_changes w = (Raise TypeError, w')
         ∧ last_services_hash w' = Some F
         ∧ log w' = log w ++ [EvConnect])
  ∧ (∃ w', monitor_cycle w = (Return tt, w')
           ∧ last_services_hash w' = Some F
           ∧ log w' = log w ++ [EvConnect; EvSleep MONITOR_INTERVAL]).
Proof.
  rewrite fetch_services_eq. simpl. intros Hlast [= Hnil].
  pose proof (check_for_service_changes_eq w) as Heq. simpl in Heq.
  rewrite Hlast, Hnil in Heq. simpl in Heq. split.
  - eexists. split; [exact Heq |]. done.
  - unfold monitor_cycle, try_except, bind. rewrite Heq.
    eexists. split; [reflexivity |]. simpl.
    split; [done |]. by rewrite <- app_assoc.
Qed.

(** ** Writing the configuration *)

(** [write_prometheus_config], case by case. *)
Lemma write_prometheus_config_eq (w : World) :
  let w1 := advance 1 [EvConnect] w in
  write_prometheus_config w
  = match config_of_services (fetched (registry_at (now w))) with
    | None => (Return false, w1)
    | Some config =>
        match disk_at (S (now w)) with
        | DiskOk =>
            (Return true,
             (set_config_file (yaml_dump config) (advance 1 [] w1)).2)
        | MakedirsFails | OpenFails => (Return false, advance 1 [] w1)
        | DumpFails partial =>
            (Return false, (set_config_file partial (advance 1 [] w1)).2)
        end
    end.
Proof.
  simpl. unfold write_prometheus_config, try_except, bind.
  rewrite generate_prometheus_config_eq.
  destruct (config_of_services _) as [config |]; [| done].
  unfold write_file, bind, tick, advance. simpl.
  destruct (disk_at (S (now w))); simpl; rewrite ?app_nil_r; reflexivity.
Qed.

(** C7: when the list of services is empty there is no document,
    [write_prometheus_config] reports failure and the configuration file
    keeps its content, the database having been queried and nothing
    written; when the list is not empty there is a document. *)
Theorem write_prometheus_config_skips_empty (w : World)
    (services : list Service) :
  (fetch_services w).1 = Return services →
  (services = [] →
     (generate_prometheus_config w).1 = Return None
     ∧ ∃ w', write_prometheus_config w = (Return false, w')
             ∧ config_file w' = config_file w
             ∧ log w' = log w ++ [EvConnect])
  ∧ (services ≠ [] →
       ∃ config, (generate_prometheus_config w).1 = Return (Some config)
                 ∧ config_of_services services = Some config).
Proof.
  rewrite fetch_services_eq. simpl. intros [= Hs].
  rewrite generate_prometheus_config_eq, write_prometheus_config_eq, Hs.
  simpl. split.
  - intros ->. simpl. split; [done |]. eexists. split; [reflexivity |].
    done.
  - intros Hne. destruct services as [| s services]; [done |].
    eexists. split; reflexivity.
Qed.

(** ** Reload and the monitoring loop *)

Lemma poll_is_None_eq (w : World) :
  poll_is_None w
  = match prometheus_process w with
    | None => (Raise AttributeError, w)
    | Some p =>
        match returncode p with
        | Some _ => (Return false, advance 0 [EvPoll false] w)
        | None =>
            match returncode_at (now w) with
            | None => (Return true, advance 1 [EvPoll true] w)
            | Some code =>
                (Return false,
                 advance 1 [EvPoll false]
                   (set_prometheus_process
                      (Some {| pid := pid p; returncode := Some code |}) w).2)
            end
        end
    end.
Proof.
  unfold poll_is_None, bind, get_prometheus_process.
  destruct (prometheus_process w) as [p |]; [| done].
  destruct (returncode p); [done |]. simpl.
  destruct (returncode_at (now w)); reflexivity.
Qed.

Lemma process_is_running_eq (w : World) :
  process_is_running w
  = match prometheus_process w with
    | None => (Return false, w)
    | Some _ => poll_is_None w
    end.
Proof.
  unfold process_is_running, bind, get_prometheus_process.
  destruct (prometheus_process w); reflexivity.
Qed.

(** The check answers [running_at], and tells the outside nothing but the
    poll. *)
Lemma process_is_running_frame (w : World) :
  ∃ w' tr,
    process_is_running w = (Return (running_at (now w) w), w')
    ∧ last_services_hash w' = last_services_hash w
    ∧ log w' = log w ++ tr
    ∧ (running_at (now w) w = true →
         w' = advance 1 [EvPoll true] w)
    ∧ occurrences EvReload tr = 0
    ∧ ∀ h, occurrences (EvAssignHash h) tr = 0.
Proof.
  rewrite process_is_running_eq, poll_is_None_eq. unfold running_at.
  destruct (prometheus_process w) as [p |].
  - destruct (returncode p).
    + eexists _, _. split; [reflexivity |]. simpl. repeat split; done.
    + destruct (returncode_at (now w)).
      * eexists _, _. split; [reflexivity |]. simpl. repeat split; done.
      * eexists _, _. split; [reflexivity |]. simpl. repeat split; done.
  - eexists _, []. split; [reflexivity |]. simpl.
    rewrite app_nil_r. repeat split; done.
Qed.

(** [reload_prometheus] returns, whatever happens to it, leaves the stored
    fingerprint alone, and is entered once. *)
Lemma reload_prometheus_frame (w : World) :
  ∃ success w' tr,
    reload_prometheus w = (Return success, w')
    ∧ last_services_hash w' = last_services_hash w
    ∧ log w' = log w ++ EvReload :: tr
    ∧ occurrences EvReload tr = 0
    ∧ ∀ h, occurrences (EvAssignHash h) tr = 0.
Proof.
  unfold reload_prometheus, bind, try_except. simpl.
  match goal with
  | |- context [process_is_running ?w0] =>
      destruct (process_is_running_frame w0)
        as (w1 & tr1 & -> & Hl1 & Hlog1 & _ & Hr1 & Ha1)
  end.
  simpl in *.
  destruct (running_at _ _); simpl.
  2:{ eexists _, _, tr1. split; [reflexivity |].
      rewrite Hlog1, <- app_assoc. done. }
  rewrite write_prometheus_config_eq. simpl.
  assert (∀ tr2 w2,
            last_services_hash w2 = last_services_hash w1 →
            log w2 = log w1 ++ tr2 →
            occurrences EvReload tr2 = 0 →
            (∀ h, occurrences (EvAssignHash h) tr2 = 0) →
            last_services_hash w2 = last_services_hash w
            ∧ log w2 = log w ++ EvReload :: tr1 ++ tr2
            ∧ occurrences EvReload (tr1 ++ tr2) = 0
            ∧ ∀ h, occurrences (EvAssignHash h) (tr1 ++ tr2) = 0) as Hframe.
  { intros tr2 w2 Hl2 Hlog2 Hr2 Ha2. split; [congruence |]. split.
    - rewrite Hlog2, Hlog1, <- !app_assoc. done.
    - split; [| intros h]; rewrite occurrences_app.
      + by rewrite Hr1, Hr2.
      + by rewrite Ha1, Ha2. }
  destruct (config_of_services _) as [config |]; simpl.
  - destruct (disk_at _); simpl;
      [ unfold kill, bind, tick; simpl; destruct (signal_at _); simpl
      | .. ];
      eexists _, _, _; (split; [reflexivity |]);
      eapply Hframe; simpl; rewrite <- ?app_assoc; simpl; done.
  - eexists _, _, _. split; [reflexivity |].
    eapply Hframe; simpl; rewrite <- ?app_assoc; simpl; done.
Qed.

(** C1: in a turn of the monitoring loop that finds a fingerprint [F2]
    different from the stored [F1], [last_services_hash] is assigned [F2]
    before anything else is done about the change and is [F2] when the turn
    ends; [reload_prometheus] is entered once, after the assignment, when
    there is a process handle and the process is alive, and not at all
    otherwise; what becomes of the reload changes none of this. *)
Theorem monitor_cycle_records_change (w : World) (F1 F2 : string) :
  last_services_hash w = Some F1 →
  get_services_hash (fetched (registry_at (now w))) = Some F2 →
  F1 ≠ F2 →
  ∃ w' tr,
    monitor_cycle w = (Return tt, w')
    ∧ last_services_hash w' = Some F2
    ∧ log w' = log w ++ [EvConnect; EvAssignHash (Some F2)] ++ tr
    ∧ (∀ h, occurrences (EvAssignHash h) tr = 0)
    ∧ occurrences EvReload tr
      = if running_at (S (now w)) w then 1 else 0.
Proof.
  intros Hlast Hhash Hne.
  unfold monitor_cycle, try_except, bind.
  pose proof (check_for_service_changes_eq w) as Heq. simpl in Heq.
  rewrite Hlast, Hhash, decide_False in Heq by done.
  rewrite Heq. clear Heq. simpl.
  match goal with
  | |- context [process_is_running ?w0] =>
      destruct (process_is_running_frame w0)
        as (w1 & tr1 & -> & Hl1 & Hlog1 & _ & Hr1 & Ha1)
  end.
  simpl in *.
  change (running_at (S (now w)) _) with (running_at (S (now w)) w).
  destruct (running_at (S (now w)) w); simpl.
  - match goal with
    | |- context [reload_prometheus ?w0] =>
        destruct (reload_prometheus_frame w0)
          as (success & w2 & tr2 & -> & Hl2 & Hlog2 & Hr2 & Ha2)
    end.
    simpl.
    eexists _, (tr1 ++ EvReload :: tr2 ++ [EvSleep MONITOR_INTERVAL]).
    split; [reflexivity |]. simpl.
    split; [congruence |].
    split; [rewrite Hlog2, Hlog1, <- !app_assoc; done |].
    split.
    + intros h.
      rewrite occurrences_app, occurrences_cons, occurrences_app,
        occurrences_cons, Ha1, Ha2.
      repeat case_decide; done.
    + rewrite occurrences_app, occurrences_cons, occurrences_app,
        occurrences_cons, Hr1, Hr2.
      repeat case_decide; done.
  - eexists _, (tr1 ++ [EvSleep MONITOR_INTERVAL]).
    split; [reflexivity |]. simpl.
    split; [congruence |].
    split; [rewrite Hlog1, <- !app_assoc; done |].
    split.
    + intros h. rewrite occurrences_app, occurrences_cons, Ha1.
      repeat case_decide; done.
    + rewrite occurrences_app, occurrences_cons, Hr1.
      repeat case_decide; done.
Qed.

(** C6: the document is a function of the table that does not depend on
    the order in which the database keeps its rows (the rows being told
    apart by organisation and service id); the jobs of the organisations
    come in the order in which the organisations first appear among the
    services, and the services behind the targets of each job are sorted by
    [(organization_id, service_id)]. *)
Theorem generate_prometheus_config_order_stable (w : World)
    (rows : list row) (config : Config) :
  registry_at (now w) = Table rows →
  (generate_prometheus_config w).1 = Return (Some config) →
  let services := service_of_row <$> merge_sort order_by_le rows in
  scrape_configs config
  = self_job :: ((λ org_id, tenant_job org_id services)
                   <$> distinct (organization_id <$> services))
  ∧ (∀ org_id, StronglySorted service_le (services_of org_id services))
  ∧ (∀ w' rows',
       registry_at (now w') = Table rows' →
       rows' ≡ₚ rows →
       NoDup (order_by_key <$> rows) →
       (generate_prometheus_config w').1 = Return (Some config)).
Proof.
  intros Hreg. rewrite generate_prometheus_config_eq, Hreg. simpl.
  intros [= Hcfg]. split; [| split].
  - unfold config_of_services in Hcfg.
    destruct (service_of_row <$> merge_sort order_by_le rows) eqn:Hs;
      [done |].
    injection Hcfg as <-. exact (scrape_configs_of_services (s :: l)).
  - intros org_id. apply StronglySorted_filter. apply (fetched_sorted rows).
  - intros w' rows' Hreg' Hp Hnd.
    rewrite generate_prometheus_config_eq, Hreg'.
    rewrite (fetched_Permutation rows rows') by done. simpl.
    by rewrite Hcfg.
Qed.

End Monitoring.

(** ** Stopping the daemon *)

Lemma advance_advance (n1 n2 : nat) (tr1 tr2 : list Event) (w : World) :
  advance n2 tr2 (advance n1 tr1 w) = advance (n2 + n1) (tr1 ++ tr2) w.
Proof.
  unfold advance. simpl. f_equal; [lia | by rewrite app_assoc].
Qed.

Lemma occurrences_waiting_sleep (k : nat) :
  occurrences (EvSleep 1) (waiting k) = k.
Proof.
  induction k as [| k IH]; [done |]. simpl.
  rewrite !occurrences_cons, IH. repeat case_decide; done.
Qed.

Lemma occurrences_waiting_other (e : Event) (k : nat) :
  e ≠ EvPoll true → e ≠ EvSleep 1 → occurrences e (waiting k) = 0.
Proof.
  intros H1 H2. induction k as [| k IH]; [done |]. simpl.
  rewrite !occurrences_cons, IH. repeat case_decide; simplify_eq; done.
Qed.

(** What the outcomes have in common: at most ten sleeps of one second,
    and the handle is cleared exactly when an exit was seen or the kill
    signal was sent, in which case the stop succeeds. *)
Lemma stop_outcome_summary (p : Popen) (tr : list Event) (result : bool)
    (handle : option Popen) :
  stop_outcome p tr result handle →
  (occurrences (EvSleep 1) tr ≤ 10)%nat
  ∧ (0 < occurrences (EvPoll false) tr + occurrences (EvKillpg SIGKILL) tr
     ↔ handle = None)
  ∧ (handle = None ↔ result = true)
  ∧ (handle ≠ None → handle = Some p).
Proof.
  intros Hout. destruct Hout as [| k Hk | | |];
    rewrite ?occurrences_cons, ?occurrences_app, ?occurrences_cons,
      ?occurrences_nil, ?occurrences_waiting_sleep,
      ?(occurrences_waiting_other (EvPoll false)),
      ?(occurrences_waiting_other (EvKillpg SIGKILL)) by done;
    repeat case_decide; simplify_eq; simpl;
    (split; [lia |]); (split; [split; [done || lia | done || lia] |]);
    split; done.
Qed.

Section Supervisor.

Context `{Platform}.

Lemma killpg_eq (sig : Signal) (w : World) :
  killpg sig w
  = if signal_at (now w) then (Return tt, advance 1 [EvKillpg sig] w)
    else (Raise OSError, advance 1 [] w).
Proof.
  unfold killpg, bind, tick, emit, raise, advance. simpl.
  destruct (signal_at (now w)); simpl; rewrite ?app_nil_r; reflexivity.
Qed.

(** The waiting loop either sees the daemon exit in one of its [n] polls
    or finds it alive in all of them. *)
Lemma wait_for_exit_spec (n : nat) (w : World) (p : Popen) :
  prometheus_process w = Some p →
  returncode p = None →
  (∃ k code,
     k < n
     ∧ (∀ i, i < k → returncode_at (i + now w) = None)
     ∧ returncode_at (k + now w) = Some code
     ∧ wait_for_exit n w
       = (Return tt,
          advance (S k) (waiting k ++ [EvPoll false]) (exited p code w)))
  ∨ ((∀ i, i < n → returncode_at (i + now w) = None)
     ∧ wait_for_exit n w = (Return tt, advance n (waiting n) w)).
Proof.
  revert w. induction n as [| n IH]; intros w Hp Hrc.
  - right. split; [intros i Hi; lia |]. simpl. unfold ret, advance. simpl.
    rewrite app_nil_r. by destruct w.
  - simpl. unfold bind. rewrite poll_is_None_eq, Hp, Hrc.
    destruct (returncode_at (now w)) as [code |] eqn:Hat.
    + left. exists 0, code. split; [lia |].
      split; [intros i Hi; lia |]. split; [done |]. done.
    + unfold sleep, emit. simpl. rewrite <- app_assoc. simpl.
      destruct (IH (advance 1 [EvPoll true; EvSleep 1] w) Hp Hrc)
        as [(k & code & Hk & Hmin & Hat' & Heq) | [Hall Heq]];
        unfold advance in Heq; simpl in Heq; rewrite Heq.
      * left. exists (S k), code. split; [lia |]. split.
        { intros [| i] Hi; [done |]. simpl in Hmin.
          rewrite <- (Hmin i) by lia. f_equal. lia. }
        split.
        { simpl in Hat'. rewrite <- Hat'. f_equal. lia. }
        unfold advance, exited. simpl. do 2 f_equal; [lia |].
        rewrite <- !app_assoc. done.
      * right. split.
        { intros [| i] Hi; [done |]. simpl in Hall.
          rewrite <- (Hall i) by lia. f_equal. lia. }
        unfold advance. simpl. do 2 f_equal; [lia |].
        rewrite <- !app_assoc. done.
Qed.

Local Arguments wait_for_exit : simpl never.
Local Arguments waiting : simpl never.

(** [stop_prometheus] on a running daemon ends in one of the five ways,
    and which one is decided by whether the signals can be sent and by
    when the daemon exits. *)
Lemma stop_prometheus_running (w : World) (p : Popen) :
  prometheus_process w = Some p →
  returncode p = None →
  returncode_at (now w) = None →
  ∃ result w' tr,
    stop_prometheus w = (Return result, w')
    ∧ log w' = log w ++ EvPoll true :: tr
    ∧ stop_outcome p tr result (prometheus_process w')
    ∧ (signal_at (S (now w)) = true → ∃ tr', tr = EvKillpg SIGTERM :: tr')
    ∧ (signal_at (S (now w)) = false → tr = [])
    ∧ (signal_at (S (now w)) = true →
         (∀ k code,
            k < 10 →
            (∀ i, i < k → returncode_at (i + (2 + now w)) = None) →
            returncode_at (k + (2 + now w)) = Some code →
            tr = EvKillpg SIGTERM :: waiting k ++ [EvPoll false; EvPoll false])
         ∧ ((∀ i, i < 10 → returncode_at (i + (2 + now w)) = None) →
            tr = EvKillpg SIGTERM
                   :: waiting 10
                   ++ match returncode_at (12 + now w) with
                      | Some _ => [EvPoll false]
                      | None =>
                          if signal_at (13 + now w)
                          then [EvPoll true; EvKillpg SIGKILL]
                          else [EvPoll true]
                      end)).
Proof.
  intros Hp Hrc Hat.
  unfold stop_prometheus, try_except, bind.
  rewrite process_is_running_eq, poll_is_None_eq, Hp, Hrc, Hat.
  rewrite killpg_eq. simpl.
  destruct (signal_at (S (now w))) eqn:Hsig.
  2:{ exists false. eexists. exists []. split; [reflexivity |]. simpl.
      rewrite app_nil_r, Hp. split; [done |]. split; [constructor |].
      done. }
  rewrite advance_advance.
  destruct (wait_for_exit_spec 10 (advance (1 + 1) ([EvPoll true] ++ [EvKillpg SIGTERM]) w) p Hp Hrc)
    as [(k & code & Hk & Hmin & Hexit & ->) | [Hall ->]].
  - rewrite poll_is_None_eq. simpl.
    exists true. eexists.
    exists (EvKillpg SIGTERM :: waiting k ++ [EvPoll false; EvPoll false]).
    split; [reflexivity |]. simpl.
    split; [rewrite <- ?app_assoc; simpl; rewrite <- ?app_assoc;
            reflexivity |].
    split; [by constructor |]. split; [eauto |]. split; [done |].
    intros _. simpl in Hmin, Hexit. split.
    + intros k' code' Hk' Hmin' Hexit'.
      destruct (lt_eq_lt_dec k k') as [[Hlt | ->] | Hgt].
      * rewrite (Hmin' k Hlt) in Hexit. done.
      * done.
      * rewrite (Hmin k' Hgt) in Hexit'. done.
    + intros Hall. rewrite (Hall k Hk) in Hexit. done.
  - simpl in Hall.
    rewrite poll_is_None_eq. simpl. rewrite Hp, Hrc.
    match goal with
    | |- context [match returncode_at ?t with _ => _ end] =>
        destruct (returncode_at t) as [code |]
    end.
    + exists true. eexists.
      exists (EvKillpg SIGTERM :: waiting 10 ++ [EvPoll false]).
      split; [reflexivity |].
      split; [simpl; rewrite <- ?app_assoc; reflexivity |].
      split; [constructor |]. split; [eauto |]. split; [done |].
      intros _. split; [| done].
      intros k' code' Hk' _ Hexit'. rewrite (Hall k' Hk') in Hexit'. done.
    + rewrite killpg_eq. simpl.
      match goal with
      | |- context [if signal_at ?t then _ else _] =>
          destruct (signal_at t)
      end.
      * exists true. eexists.
        exists (EvKillpg SIGTERM
                  :: waiting 10 ++ [EvPoll true; EvKillpg SIGKILL]).
        split; [reflexivity |].
        split; [simpl; rewrite <- ?app_assoc; reflexivity |].
        split; [constructor |]. split; [eauto |]. split; [done |].
        intros _. split; [| done].
        intros k' code' Hk' _ Hexit'. rewrite (Hall k' Hk') in Hexit'. done.
      * exists false. eexists.
        exists (EvKillpg SIGTERM :: waiting 10 ++ [EvPoll true]).
        split; [reflexivity |].
        split; [simpl; rewrite app_nil_r, <- ?app_assoc; reflexivity |].
        split; [simpl; rewrite Hp; constructor |].
        split; [eauto |]. split; [done |].
        intros _. split; [| done].
        intros k' code' Hk' _ Hexit'. rewrite (Hall k' Hk') in Hexit'. done.
Qed.


End Supervisor.

(** * The statements on sample runs *)

(** When [SIGHUP] cannot be sent the reload fails, having rewritten the
    configuration. *)
Example reload_prometheus_fails_without_signal :
  ∃ w', reload_prometheus
          (H := example_platform (Table [row_A]) None false DiskOk)
          (example_world (Some daemon) (Some "md5:stale"))
        = (Return false, w')
        ∧ log w'
          = [EvReload; EvPoll true; EvConnect;
             EvWriteConfig "scrape_configs: ..."].
Proof. eexists. vm_compute. done. Qed.

(** C1 on a run: the stored fingerprint is stale, the daemon is alive, and
    the reload fails because [SIGHUP] cannot be sent. *)
Lemma monitor_cycle_records_change_witness :
  ∃ w' tr,
    monitor_cycle
      (H := example_platform (Table [row_A]) None false DiskOk)
      (example_world (Some daemon) (Some "md5:stale"))
    = (Return tt, w')
    ∧ last_services_hash w' = Some "md5:A,https://a.com/m,t1,Web API"
    ∧ log w'
      = [EvConnect;
         EvAssignHash (Some "md5:A,https://a.com/m,t1,Web API")] ++ tr
    ∧ (∀ h, occurrences (EvAssignHash h) tr = 0)
    ∧ occurrences EvReload tr = 1.
Proof.
  apply (monitor_cycle_records_change
           (H := example_platform (Table [row_A]) None false DiskOk)
           (example_world (Some daemon) (Some "md5:stale"))
           "md5:stale" "md5:A,https://a.com/m,t1,Web API").
  - reflexivity.
  - vm_compute. reflexivity.
  - discriminate.
Defined.

(** C2, the claim as it stands fails: with the database unreachable
    [fetch_services] does not raise but returns the empty list, which is
    also what it returns for an empty table. *)
Lemma fetch_services_failure_as_empty :
  registry_at (Platform := example_platform ConnectFails None true DiskOk) 0
  = ConnectFails
  ∧ (fetch_services
       (H := example_platform ConnectFails None true DiskOk)
       (example_world None None)).1
    = Return []
  ∧ (fetch_services
       (H := example_platform (Table []) None true DiskOk)
       (example_world None None)).1
    = Return [].
Proof. vm_compute. done. Qed.

(** C3 on a run: a stored fingerprint that differs from the new one. *)
Lemma check_for_service_changes_by_equality_witness :
  ∃ w',
    check_for_service_changes
      (H := example_platform (Table [row_A]) None true DiskOk)
      (example_world None (Some "md5:stale"))
    = (Return (true, [service_of_row row_A]), w')
    ∧ last_services_hash w' = Some "md5:A,https://a.com/m,t1,Web API"
    ∧ log w'
      = [] ++ [EvConnect;
               EvAssignHash (Some "md5:A,https://a.com/m,t1,Web API")].
Proof.
  apply (check_for_service_changes_by_equality
           (H := example_platform (Table [row_A]) None true DiskOk)
           (example_world None (Some "md5:stale"))
           [service_of_row row_A])
    with (F1 := "md5:stale") (F2 := "md5:A,https://a.com/m,t1,Web API").
  - vm_compute. reflexivity.
  - reflexivity.
  - vm_compute. reflexivity.
  - discriminate.
Defined.

(** C4 on two orders of the same two services. *)
Lemma get_services_hash_order_independent_witness :
  get_services_hash
    (H := example_platform (Table []) None true DiskOk)
    [service_of_row row_A; service_of_row row_B]
  = get_services_hash
      (H := example_platform (Table []) None true DiskOk)
      [service_of_row row_B; service_of_row row_A].
Proof.
  apply (get_services_hash_order_independent
           (H := example_platform (Table []) None true DiskOk)).
  apply perm_swap.
Defined.

(** C5 on the three services of the scenario. *)
Lemma config_of_services_jobs_witness :
  ∃ config,
    config_of_services
      (H := example_platform (Table []) None true DiskOk)
      [ mkService "A" "https://a.com/m" "t1" "Web API";
        mkService "B" "http://b.com:81/m" "t1" "Database";
        mkService "C" "https://c.com/m" "t2" "Balancer" ]
    = Some config
    ∧ length (scrape_configs config) = 3
    ∧ job_targets <$> tail (scrape_configs config)
      = [ ("org_t1", [[Some "a.com:443"; Some "b.com:81"]]);
          ("org_t2", [[Some "c.com:443"]]) ].
Proof.
  apply (config_of_services_jobs
           (H := example_platform (Table []) None true DiskOk)
           [service_of_row row_A] "Web API" "Database" "Balancer").
  - discriminate.
  - reflexivity.
  - reflexivity.
  - reflexivity.
Defined.

(** C6 on a table kept in the order C, B, A. *)
Lemma generate_prometheus_config_order_stable_witness :
  StronglySorted service_le
    (services_of "t1" (service_of_row <$> [row_A; row_B; row_C])).
Proof.
  apply (generate_prometheus_config_order_stable
           (H := example_platform (Table [row_C; row_B; row_A]) None true
                   DiskOk)
           (example_world None None)
           [row_C; row_B; row_A]
           {| global := [("scrape_interval", "15s");
                         ("evaluation_interval", "15s")];
              scrape_configs :=
                self_job
                  (H := example_platform (Table []) None true DiskOk)
                :: (org_job
                      (H := example_platform (Table []) None true DiskOk)
                      <$> [ ("t1", service_of_row <$> [row_A; row_B]);
                            ("t2", [service_of_row row_C]) ]) |}).
  - reflexivity.
  - vm_compute. reflexivity.
Defined.

(** C7 on an empty table. *)
Lemma write_prometheus_config_skips_empty_witness :
  ∃ w', write_prometheus_config
          (H := example_platform (Table []) None true DiskOk)
          (example_world None None)
        = (Return false, w')
        ∧ config_file w' = Some "scrape_configs: old"
        ∧ log w' = [EvConnect].
Proof.
  apply (write_prometheus_config_skips_empty
           (H := example_platform (Table []) None true DiskOk)
           (example_world None None) []).
  - vm_compute. reflexivity.
  - reflexivity.
Defined.


(** C10 on a table that was emptied. *)
Lemma check_for_service_changes_empty_raises_witness :
  ∃ w', check_for_service_changes
          (H := example_platform (Table []) None true DiskOk)
          (example_world None (Some "md5:stale"))
        = (Raise TypeError, w')
        ∧ last_services_hash w' = Some "md5:stale"
        ∧ log w' = [EvConnect].
Proof.
  apply (check_for_service_changes_empty_raises
           (H := example_platform (Table []) None true DiskOk)
           (example_world None (Some "md5:stale")) "md5:stale").
  - reflexivity.
  - vm_compute. reflexivity.
Defined.

(** C9, where the code leaves the claim: the URL gives the port 0, the
    parser reports it, and the resolver, which tests the port for truth,
    answers with the default port of the scheme. *)
Theorem extract_target_from_url_port_zero :
  ∃ parsed,
    urlparse (H := example_platform (Table []) None true DiskOk)
      "http://a.com:0/metrics"
    = Return parsed
    ∧ scheme parsed = "http"
    ∧ hostname parsed = Some "a.com"
    ∧ port parsed = Return (Some 0%N)
    ∧ extract_target_from_url
        (H := example_platform (Table []) None true DiskOk)
        "http://a.com:0/metrics"
      = Some "a.com:80".
Proof. eexists. vm_compute. done. Qed.

(** * More of the program *)

(** ** Traces and dictionaries *)


(** Appending a service changes the values of the dict by that service. *)
Lemma dict_append_values (d : org_dict) (k : string) (s : Service) :
  mjoin (dict_append d k s).*2 ≡ₚ s :: mjoin d.*2.
Proof.
  induction d as [| [k0 l] d IH]; simpl; [done |].
  destruct (decide (k0 = k)) as [-> | Hne]; simpl.
  - rewrite <- app_assoc. simpl. symmetry. apply Permutation_middle.
  - rewrite IH. symmetry. apply Permutation_middle.
Qed.

(** Grouping loses no service and repeats none. *)
Lemma group_by_organization_values (services : list Service) :
  mjoin (group_by_organization services).*2 ≡ₚ services.
Proof.
  induction services as [| s services IH] using rev_ind; [done |].
  rewrite group_by_organization_snoc, dict_append_values, IH.
  by rewrite Permutation_app_comm.
Qed.

Section Coverage.

Context `{Platform}.

(** X1: whatever [write_prometheus_config] runs into it returns, and it
    touches neither the process handle nor the stored fingerprint; it
    returns [True] only when the file holds the complete document of the
    services just fetched; when it returns [False] the file is as it was,
    unless [yaml.dump] failed on the way, which leaves the part written so
    far in place of the old configuration. *)
Theorem write_prometheus_config_outcome (w : World) :
  ∃ written w',
    write_prometheus_config w = (Return written, w')
    ∧ prometheus_process w' = prometheus_process w
    ∧ last_services_hash w' = last_services_hash w
    ∧ (written = true →
         ∃ config,
           config_of_services (fetched (registry_at (now w))) = Some config
           ∧ disk_at (S (now w)) = DiskOk
           ∧ config_file w' = Some (yaml_dump config))
    ∧ (written = false →
         config_file w' = config_file w
         ∨ ∃ partial,
             disk_at (S (now w)) = DumpFails partial
             ∧ config_file w' = Some partial).
Proof.
  rewrite write_prometheus_config_eq. simpl.
  destruct (config_of_services _) as [config |].
  - destruct (disk_at (S (now w))) as [| | | partial] eqn:Hdisk;
      eexists _, _; (split; [reflexivity |]); simpl;
      repeat split; try done.
    + intros _. by exists config.
    + intros _. by left.
    + intros _. by left.
    + intros _. right. by exists partial.
  - eexists _, _. split; [reflexivity |]. simpl.
    repeat split; try done. intros _. by left.
Qed.

(** Everything a call of [reload_prometheus] can do. *)
Lemma reload_prometheus_run (w : World) :
  ∃ success w' tr,
    reload_prometheus w = (Return success, w')
    ∧ log w' = log w ++ tr
    ∧ Forall reload_event tr
    ∧ last_services_hash w' = last_services_hash w
    ∧ occurrences (EvKill SIGHUP) tr = (if success then 1 else 0)
    ∧ (running_at (now w) w = false →
         success = false
         ∧ config_file w' = config_file w
         ∧ occurrences EvConnect tr = 0)
    ∧ (success = true →
         running_at (now w) w = true
         ∧ ∃ config tr0,
             config_of_services (fetched (registry_at (S (now w))))
             = Some config
             ∧ config_file w' = Some (yaml_dump config)
             ∧ tr = tr0 ++ [EvWriteConfig (yaml_dump config); EvKill SIGHUP]).
Proof.
  unfold reload_prometheus, bind, try_except, running_at. simpl.
  rewrite process_is_running_eq, poll_is_None_eq. simpl.
  destruct (prometheus_process w) as [p |]; simpl.
  2:{ eexists false, _, _. split; [reflexivity |]. simpl.
      split; [reflexivity |]. split; [repeat constructor |].
      repeat split; done. }
  destruct (returncode p); simpl.
  { eexists false, _, _. split; [reflexivity |]. simpl.
    rewrite <- app_assoc. simpl.
    split; [reflexivity |]. split; [repeat constructor |].
    repeat split; done. }
  destruct (returncode_at (now w)); simpl.
  { eexists false, _, _. split; [reflexivity |]. simpl.
    rewrite <- app_assoc. simpl.
    split; [reflexivity |]. split; [repeat constructor |].
    repeat split; done. }
  rewrite write_prometheus_config_eq. simpl.
  destruct (config_of_services _) as [config |] eqn:Hcfg; simpl.
  2:{ eexists false, _, _. split; [reflexivity |]. simpl.
      rewrite <- !app_assoc. simpl.
      split; [reflexivity |]. split; [repeat constructor |].
      repeat split; done. }
  destruct (disk_at _); simpl.
  - unfold kill, bind, tick. simpl. destruct (signal_at _); simpl.
    + eexists true, _, _. split; [reflexivity |]. simpl.
      rewrite <- !app_assoc. simpl.
      split; [reflexivity |]. split; [repeat constructor |].
      split; [done |]. split; [done |]. split; [done |].
      intros _. split; [done |].
      exists config, [EvReload; EvPoll true; EvConnect]. done.
    + eexists false, _, _. split; [reflexivity |]. simpl.
      rewrite <- !app_assoc. simpl.
      split; [reflexivity |]. split; [repeat constructor |].
      repeat split; done.
  - eexists false, _, _. split; [reflexivity |]. simpl.
    rewrite <- !app_assoc. simpl.
    split; [reflexivity |]. split; [repeat constructor |].
    repeat split; done.
  - eexists false, _, _. split; [reflexivity |]. simpl.
    rewrite <- !app_assoc. simpl.
    split; [reflexivity |]. split; [repeat constructor |].
    repeat split; done.
  - eexists false, _, _. split; [reflexivity |]. simpl.
    rewrite <- !app_assoc. simpl.
    split; [reflexivity |]. split; [repeat constructor |].
    repeat split; done.
Qed.

(** X2: a reload asked for while the daemon is not running (no handle, or
    a handle whose process has exited) fails after the liveness check: the
    registry is not queried, the configuration file is not touched and no
    signal is sent. *)
Theorem reload_prometheus_not_running (w : World) :
  running_at (now w) w = false →
  ∃ w' tr,
    reload_prometheus w = (Return false, w')
    ∧ log w' = log w ++ tr
    ∧ config_file w' = config_file w
    ∧ occurrences EvConnect tr = 0
    ∧ occurrences (EvKill SIGHUP) tr = 0
    ∧ ∀ content, occurrences (EvWriteConfig content) tr = 0.
Proof.
  intros Hnot.
  destruct (reload_prometheus_run w)
    as (success & w' & tr & Hrun & Hlog & Hev & _ & Hkill & Hdown & Hup).
  destruct (Hdown Hnot) as (-> & Hfile & Hconn).
  exists w', tr. repeat split; try done.
  intros content.
  destruct (decide (occurrences (EvWriteConfig content) tr = 0))
    as [| Hwritten]; [done |].
  unfold running_at in Hnot. revert Hrun.
  unfold reload_prometheus, bind, try_except. simpl.
  rewrite process_is_running_eq, poll_is_None_eq. simpl.
  destruct (prometheus_process w) as [p |]; simpl.
  2:{ intros [= <-]. simpl in Hlog. apply app_inv_head in Hlog.
      subst tr. done. }
  destruct (returncode p); simpl.
  { intros [= <-]. simpl in Hlog. rewrite <- app_assoc in Hlog.
    apply app_inv_head in Hlog. subst tr. done. }
  destruct (returncode_at (now w)); [| done]. simpl.
  intros [= <-]. simpl in Hlog. rewrite <- app_assoc in Hlog.
  apply app_inv_head in Hlog. subst tr. done.
Qed.

(** X3: [reload_prometheus] sends [SIGHUP] exactly when it returns [True],
    and then as the last thing it does, right after writing the complete
    document of the services it fetched: the daemon is never told to
    reload a configuration that was not written or was written in part. *)
Theorem reload_prometheus_signals_after_write (w : World) :
  ∃ success w' tr,
    reload_prometheus w = (Return success, w')
    ∧ log w' = log w ++ tr
    ∧ occurrences (EvKill SIGHUP) tr = (if success then 1 else 0)
    ∧ (success = true →
         ∃ config tr0,
           config_of_services (fetched (registry_at (S (now w))))
           = Some config
           ∧ config_file w' = Some (yaml_dump config)
           ∧ tr = tr0 ++ [EvWriteConfig (yaml_dump config); EvKill SIGHUP]).
Proof.
  destruct (reload_prometheus_run w)
    as (success & w' & tr & Hrun & Hlog & _ & _ & Hkill & _ & Hup).
  exists success, w', tr. repeat split; try done.
  intros Hs. by destruct (Hup Hs) as [_ ?].
Qed.



(** X5: a turn that finds a stored fingerprint equal to the new one only
    queries the registry and sleeps: the daemon is not polled, nothing is
    written, no reload is entered and the globals keep their values. *)
Theorem monitor_cycle_without_change (w : World) (F : string) :
  last_services_hash w = Some F →
  get_services_hash (fetched (registry_at (now w))) = Some F →
  monitor_cycle w
  = (Return tt, advance 1 [EvConnect; EvSleep MONITOR_INTERVAL] w).
Proof.
  intros Hlast Hhash.
  unfold monitor_cycle, try_except, bind.
  pose proof (check_for_service_changes_eq w) as Heq. simpl in Heq.
  rewrite Hlast, Hhash, decide_True in Heq by done.
  rewrite Heq. simpl. unfold sleep, emit, advance. simpl.
  by rewrite <- app_assoc.
Qed.

(** X6: with no stored fingerprint the turn stores the fingerprint of
    whatever the registry holds and does not reload; services that were
    added before this first comparison are therefore never announced to
    the daemon by the loop. *)
Theorem monitor_cycle_baseline (w : World) :
  last_services_hash w = None →
  ∃ w',
    monitor_cycle w = (Return tt, w')
    ∧ last_services_hash w'
      = get_services_hash (fetched (registry_at (now w)))
    ∧ log w'
      = log w ++ [EvConnect;
                  EvAssignHash
                    (get_services_hash (fetched (registry_at (now w))));
                  EvSleep MONITOR_INTERVAL]
    ∧ config_file w' = config_file w
    ∧ prometheus_process w' = prometheus_process w.
Proof.
  intros Hlast.
  unfold monitor_cycle, try_except, bind.
  pose proof (check_for_service_changes_eq w) as Heq. simpl in Heq.
  rewrite Hlast in Heq. rewrite Heq. simpl.
  eexists. split; [reflexivity |]. simpl.
  rewrite <- !app_assoc. done.
Qed.

(** X7: when [check_for_service_changes] returns, the stored fingerprint
    is the fingerprint of the list it returned, and that list is what the
    registry held when it was asked. *)
Theorem check_for_service_changes_stores_hash (w w' : World)
    (changed : bool) (services : list Service) :
  check_for_service_changes w = (Return (changed, services), w') →
  services = fetched (registry_at (now w))
  ∧ last_services_hash w' = get_services_hash services.
Proof.
  pose proof (check_for_service_changes_eq w) as Heq. simpl in Heq.
  rewrite Heq. clear Heq.
  destruct (last_services_hash w) as [F |] eqn:Hlast.
  - destruct (get_services_hash _) as [F' |] eqn:Hhash; [| done].
    destruct (decide (F' = F)) as [-> | Hne]; intros [= <- <- <-]; simpl.
    + by rewrite Hlast, Hhash.
    + by rewrite Hhash.
  - intros [= <- <- <-]. done.
Qed.

(** X8: a change is reported once: right after a check that answered
    "changed", a check that finds the registry as it was answers "not
    changed" and leaves the stored fingerprint alone. *)
Theorem check_for_service_changes_reports_once (w w1 : World)
    (services : list Service) :
  check_for_service_changes w = (Return (true, services), w1) →
  registry_at (now w1) = registry_at (now w) →
  ∃ w2,
    check_for_service_changes w1 = (Return (false, services), w2)
    ∧ last_services_hash w2 = last_services_hash w1.
Proof.
  pose proof (check_for_service_changes_eq w) as Heq. simpl in Heq.
  rewrite Heq. clear Heq.
  destruct (last_services_hash w) as [F |] eqn:Hlast; [| done].
  destruct (get_services_hash _) as [F' |] eqn:Hhash; [| done].
  destruct (decide (F' = F)) as [-> | Hne]; [done |].
  intros [= <- <-] Hreg.
  pose proof (check_for_service_changes_eq
                (set_last_services_hash (Some F')
                   (advance 1 [EvConnect] w)).2) as Heq.
  simpl in Heq. simpl in Hreg. rewrite Hreg, Hhash in Heq.
  rewrite decide_True in Heq by done.
  eexists. split; [exact Heq |]. done.
Qed.

(** The targets of the jobs made from a dict are the resolved addresses
    of its values. *)
Lemma org_job_addresses (d : org_dict) :
  mjoin (job_addresses <$> (org_job <$> d))
  = (λ s, extract_target_from_url (metric_url s)) <$> mjoin d.*2.
Proof.
  induction d as [| [k l] d IH]; [done |].
  rewrite !fmap_cons. csimpl. rewrite IH, fmap_app. f_equal.
  unfold job_addresses. csimpl. by rewrite app_nil_r.
Qed.

(** X9: the jobs of the organisations hold, between them, the resolved
    address of every service exactly as often as the service is in the
    list: synthesis loses no service and repeats none. *)
Theorem config_of_services_keeps_services (services : list Service)
    (config : Config) :
  config_of_services services = Some config →
  mjoin (job_addresses <$> tail (scrape_configs config))
  ≡ₚ (λ s, extract_target_from_url (metric_url s)) <$> services.
Proof.
  unfold config_of_services. destruct services as [| s services]; [done |].
  intros [= <-]. simpl tail.
  rewrite org_job_addresses.
  by rewrite group_by_organization_values.
Qed.

(** X10: no two jobs of a synthesised document have the same name. *)
Theorem config_of_services_job_names (services : list Service)
    (config : Config) :
  config_of_services services = Some config →
  NoDup (job_name <$> scrape_configs config).
Proof.
  unfold config_of_services. destruct services as [| s services]; [done |].
  intros [= <-]. simpl scrape_configs.
  rewrite group_by_organization_spec, <- list_fmap_compose.
  rewrite fmap_cons, <- list_fmap_compose.
  apply NoDup_cons. split.
  - intros Hin. apply list_elem_of_fmap in Hin as (k & Hk & _).
    simpl in Hk. discriminate Hk.
  - apply NoDup_fmap_2_strong; [| apply NoDup_distinct].
    intros k1 k2 _ _ Heq. simpl in Heq.
    by apply (inj (String.app "org_")) in Heq.
Qed.

(** X11: stopping a daemon that has exited on its own succeeds after the
    one poll that finds it gone; no signal is sent, and the handle of the
    exited process is kept, not cleared. *)
Theorem stop_prometheus_exited (w : World) (p : Popen) :
  prometheus_process w = Some p →
  running_at (now w) w = false →
  ∃ w' code,
    stop_prometheus w = (Return true, w')
    ∧ log w' = log w ++ [EvPoll false]
    ∧ prometheus_process w'
      = Some {| pid := pid p; returncode := Some code |}
    ∧ config_file w' = config_file w.
Proof.
  intros Hp Hnot. unfold running_at in Hnot. rewrite Hp in Hnot.
  unfold stop_prometheus, try_except, bind.
  rewrite process_is_running_eq, poll_is_None_eq, Hp.
  destruct p as [n [code |]]; simpl in *.
  - eexists _, code. split; [reflexivity |]. simpl. by rewrite Hp.
  - destruct (returncode_at (now w)) as [code |]; [| done].
    eexists _, code. split; [reflexivity |]. done.
Qed.

(** X12: [stop_prometheus] always returns; after a stop that succeeded
    the liveness check answers "not running" whatever the operating
    system says later, and a stop that failed has left the handle as it
    was, so that it can be tried again. *)
Theorem stop_prometheus_leaves_stopped (w : World) :
  ∃ result w',
    stop_prometheus w = (Return result, w')
    ∧ (result = true → ∀ t, running_at t w' = false)
    ∧ (result = false → prometheus_process w' = prometheus_process w).
Proof.
  destruct (prometheus_process w) as [p |] eqn:Hp.
  2:{ exists true, w. split.
      - unfold stop_prometheus, try_except, bind.
        rewrite process_is_running_eq, Hp. done.
      - split; [| done]. intros _ t. unfold running_at. by rewrite Hp. }
  destruct (running_at (now w) w) eqn:Hrun.
  - unfold running_at in Hrun. rewrite Hp in Hrun.
    destruct (returncode p) eqn:Hrc; [done |].
    destruct (returncode_at (now w)) eqn:Hat; [done |].
    destruct (stop_prometheus_running w p Hp Hrc Hat)
      as (result & w' & tr & Hstop & _ & Hout & _).
    destruct (stop_outcome_summary _ _ _ _ Hout) as (_ & _ & Hres & Hkept).
    exists result, w'. split; [done |]. split.
    + intros Htrue t. apply Hres in Htrue.
      unfold running_at. by rewrite Htrue.
    + intros Hfalse. apply Hkept. intros Hnone.
      apply Hres in Hnone. congruence.
  - unfold running_at in Hrun. rewrite Hp in Hrun.
    unfold stop_prometheus, try_except, bind.
    rewrite process_is_running_eq, poll_is_None_eq, Hp.
    destruct p as [n [code |]]; simpl in *.
    + eexists true, _. split; [reflexivity |]. split; [| done].
      intros _ t. unfold running_at. simpl. by rewrite Hp.
    + destruct (returncode_at (now w)) as [code |]; [| done].
      eexists true, _. split; [reflexivity |]. split; [| done].
      intros _ t. done.
Qed.

End Coverage.

(** ** Strings *)

Lemma append_String (c : ascii) (s t : string) :
  String c s +:+ t = String c (s +:+ t).
Proof. reflexivity. Qed.

Lemma append_nil_r (s : string) : s +:+ "" = s.
Proof. induction s as [| c s IH]; [done |]. by rewrite append_String, IH. Qed.

Lemma append_assoc (s t u : string) : (s +:+ t) +:+ u = s +:+ (t +:+ u).
Proof.
  induction s as [| c s IH]; [done |]. by rewrite !append_String, IH.
Qed.

(** A character that fails a test all characters of a text pass is not in
    the text. *)
Lemma str_contains_forallb (P : ascii → bool) (d : ascii) (s : string) :
  str_forallb P s = true → P d = false → str_contains d s = false.
Proof.
  intros Hall Hd. induction s as [| c s IH]; [done |].
  simpl in *. apply andb_true_iff in Hall as [Hc Hall].
  rewrite IH by done. rewrite bool_decide_eq_false_2; [done |].
  intros ->. congruence.
Qed.

Lemma partition_absent (d : ascii) (s : string) :
  str_contains d s = false → partition d s = (s, false, "").
Proof.
  induction s as [| c s IH]; [done |]. simpl.
  intros Hc. apply orb_false_iff in Hc as [Hc Hs].
  rewrite Hc, IH by done. done.
Qed.

Lemma partition_append (d : ascii) (s t : string) :
  str_contains d s = false →
  partition d (s +:+ String d t) = (s, true, t).
Proof.
  induction s as [| c s IH].
  - intros _. change ("" +:+ String d t) with (String d t). simpl.
    by rewrite bool_decide_eq_true_2.
  - simpl. intros Hc. apply orb_false_iff in Hc as [Hc Hs].
    change (String c s +:+ String d t) with (String c (s +:+ String d t)).
    simpl. rewrite Hc, IH by done. done.
Qed.

Lemma rpartition_absent (d : ascii) (s : string) :
  str_contains d s = false → rpartition d s = ("", false, s).
Proof.
  induction s as [| c s IH]; [done |]. simpl.
  intros Hc. apply orb_false_iff in Hc as [Hc Hs].
  rewrite IH, Hc by done. done.
Qed.

Lemma str_contains_append (d : ascii) (s t : string) :
  str_contains d (s +:+ t) = str_contains d s || str_contains d t.
Proof.
  induction s as [| c s IH]; [done |].
  rewrite append_String. simpl. by rewrite IH, orb_assoc.
Qed.

Lemma str_filter_append (f : ascii → bool) (s t : string) :
  str_filter f (s +:+ t) = str_filter f s +:+ str_filter f t.
Proof.
  induction s as [| c s IH]; [done |].
  rewrite append_String. simpl. rewrite IH. by destruct (f c).
Qed.

Lemma str_filter_forallb (f : ascii → bool) (s : string) :
  str_forallb f s = true → str_filter f s = s.
Proof.
  induction s as [| c s IH]; [done |]. simpl.
  intros Hall. apply andb_true_iff in Hall as [-> Hall]. by rewrite IH.
Qed.

Lemma str_forallb_impl (P Q : ascii → bool) (s : string) :
  (∀ c, P c = true → Q c = true) →
  str_forallb P s = true → str_forallb Q s = true.
Proof.
  intros Himpl. induction s as [| c s IH]; [done |]. simpl.
  intros Hall. apply andb_true_iff in Hall as [Hc Hall].
  by rewrite (Himpl c Hc), IH.
Qed.

Lemma str_forallb_append (P : ascii → bool) (s t : string) :
  str_forallb P (s +:+ t) = str_forallb P s && str_forallb P t.
Proof.
  induction s as [| c s IH]; [done |].
  rewrite append_String. simpl. by rewrite IH, andb_assoc.
Qed.

(** The characters of host names, which include the digits, are none of
    the characters the parser gives a meaning to. *)
Lemma is_host_char_plain (c : ascii) :
  is_host_char c = true →
  is_unsafe_url_byte c = false
  ∧ c ≠ "/"%char ∧ c ≠ "?"%char ∧ c ≠ "#"%char ∧ c ≠ "@"%char
  ∧ c ≠ "["%char ∧ c ≠ "]"%char ∧ c ≠ ":"%char ∧ c ≠ "%"%char.
Proof.
  intros Hc. split.
  - destruct (is_unsafe_url_byte c) eqn:Hu; [| done].
    unfold is_unsafe_url_byte in Hu.
    repeat (apply orb_true_iff in Hu as [Hu | Hu]);
      apply bool_decide_eq_true_1 in Hu; subst c; discriminate Hc.
  - repeat split; intros ->; discriminate Hc.
Qed.


Lemma splitnetloc_append (s t : string) :
  str_contains "/" s = false →
  str_contains "?" s = false →
  str_contains "#" s = false →
  starts_path t = true →
  splitnetloc (s +:+ t) = s.
Proof.
  intros H1 H2 H3 Ht. induction s as [| c s IH].
  - destruct t as [| c t]; [done |]. simpl in *. by rewrite Ht.
  - simpl in H1, H2, H3.
    apply orb_false_iff in H1 as [Hc1 H1].
    apply orb_false_iff in H2 as [Hc2 H2].
    apply orb_false_iff in H3 as [Hc3 H3].
    rewrite append_String. simpl. rewrite IH by done.
    by rewrite Hc1, Hc2, Hc3.
Qed.

Lemma starts_path_filter (t : string) :
  starts_path t = true →
  starts_path (str_filter (λ c, negb (is_unsafe_url_byte c)) t) = true.
Proof.
  destruct t as [| c t]; [done |]. simpl. intros Hc.
  repeat (apply orb_true_iff in Hc as [Hc | Hc]);
    apply bool_decide_eq_true_1 in Hc; subst c; done.
Qed.

(** A text of host characters, with colons among them, holds none of the
    characters that end or structure the network location. *)
Lemma host_text_plain (s : string) :
  str_forallb (λ c, is_host_char c || bool_decide (c = ":"%char)) s = true →
  str_filter (λ c, negb (is_unsafe_url_byte c)) s = s
  ∧ str_contains "/" s = false ∧ str_contains "?" s = false
  ∧ str_contains "#" s = false ∧ str_contains "@" s = false
  ∧ str_contains "[" s = false ∧ str_contains "]" s = false
  ∧ str_contains "%" s = false.
Proof.
  intros Hs. split.
  - apply str_filter_forallb. revert Hs. apply str_forallb_impl.
    intros c Hc. apply orb_true_iff in Hc as [Hc | Hc].
    + by destruct (is_host_char_plain c Hc) as [-> _].
    + apply bool_decide_eq_true_1 in Hc. by subst c.
  - repeat split; by apply (str_contains_forallb _ _ _ Hs).
Qed.

Lemma host_text_of_host (s : string) :
  str_forallb is_host_char s = true →
  str_forallb (λ c, is_host_char c || bool_decide (c = ":"%char)) s = true.
Proof. apply str_forallb_impl. intros c ->. done. Qed.

(** [_hostinfo] of a network location that is a plain host. *)
Lemma hostinfo_host (sch host : string) :
  str_forallb is_host_char host = true →
  hostinfo {| scheme := sch; netloc := host |} = (host, None).
Proof.
  intros Hhost.
  destruct (host_text_plain host (host_text_of_host host Hhost))
    as (_ & _ & _ & _ & H4 & H5 & _ & _).
  assert (str_contains ":" host = false) as H8
    by (by apply (str_contains_forallb _ _ _ Hhost)).
  unfold hostinfo. simpl.
  rewrite (rpartition_absent "@") by done.
  rewrite (partition_absent "[") by done.
  rewrite (partition_absent ":") by done.
  done.
Qed.

(** [_hostinfo] of a plain host followed by a colon and a port. *)
Lemma hostinfo_host_port (sch host ptext : string) :
  str_forallb is_host_char host = true →
  str_forallb is_host_char ptext = true →
  ptext ≠ "" →
  hostinfo {| scheme := sch; netloc := host +:+ ":" +:+ ptext |}
  = (host, Some ptext).
Proof.
  intros Hhost Hport Hne.
  assert (str_forallb (λ c, is_host_char c || bool_decide (c = ":"%char))
            (host +:+ ":" +:+ ptext) = true) as Hnet.
  { rewrite !str_forallb_append.
    rewrite (host_text_of_host host), (host_text_of_host ptext) by done.
    done. }
  destruct (host_text_plain _ Hnet) as (_ & _ & _ & _ & H4 & H5 & _ & _).
  assert (str_contains ":" host = false) as H8
    by (by apply (str_contains_forallb _ _ _ Hhost)).
  unfold hostinfo. simpl.
  rewrite (rpartition_absent "@") by done.
  rewrite (partition_absent "[") by done.
  change (host +:+ ":" +:+ ptext) with (host +:+ String ":" ptext).
  rewrite partition_append by done.
  by rewrite bool_decide_eq_false_2.
Qed.

Lemma hostname_host (sch netloc host : string) (ptext : option string) :
  str_forallb is_host_char host = true →
  host ≠ "" →
  hostinfo {| scheme := sch; netloc := netloc |} = (host, ptext) →
  hostname {| scheme := sch; netloc := netloc |} = Some (lower host).
Proof.
  intros Hhost Hne Hinfo. unfold hostname. rewrite Hinfo. simpl.
  rewrite bool_decide_eq_false_2 by done.
  assert (str_contains "%" host = false) as H9
    by (by apply (str_contains_forallb _ _ _ Hhost)).
  rewrite (partition_absent "%") by done.
  by rewrite !append_nil_r.
Qed.

Section Resolver.

Context `{Platform}.

(** What [urlparse] makes of [scheme://netloc] followed by a path, for
    the two schemes the resolver knows. *)
Lemma urlparse_plain (sch netloc rest : string) :
  sch = "http" ∨ sch = "https" →
  str_forallb (λ c, is_host_char c || bool_decide (c = ":"%char)) netloc
  = true →
  starts_path rest = true →
  urlparse (sch +:+ "://" +:+ netloc +:+ rest)
  = if check_netloc netloc
    then Return {| scheme := sch; netloc := netloc |}
    else Raise ValueError.
Proof.
  intros Hsch Hnet Hrest.
  destruct (host_text_plain netloc Hnet)
    as (Hfilter & H1 & H2 & H3 & _ & H5 & H6 & _).
  pose proof (starts_path_filter rest Hrest) as Hrest'.
  unfold urlparse.
  destruct Hsch as [-> | ->].
  - change (lstrip is_c0_control_or_space
              ("http" +:+ "://" +:+ netloc +:+ rest))
      with ("http" +:+ String ":" ("//" +:+ netloc +:+ rest)).
    rewrite str_filter_append.
    change (str_filter _ "http") with "http".
    change (String ":" ("//" +:+ netloc +:+ rest))
      with (":" +:+ "//" +:+ (netloc +:+ rest)).
    rewrite !str_filter_append, Hfilter.
    change (str_filter _ ":") with ":". change (str_filter _ "//") with "//".
    change (":" +:+ "//" +:+ netloc +:+ ?t)
      with (String ":" ("//" +:+ (netloc +:+ t))).
    rewrite partition_append by done.
    change (is_ascii_alpha "h" && str_forallb is_scheme_char "http")
      with true.
    cbv iota beta.
    change (after_double_slash ("//" +:+ ?t)) with (Some t).
    cbv iota beta zeta.
    rewrite splitnetloc_append by done.
    rewrite H5, H6. simpl. done.
  - change (lstrip is_c0_control_or_space
              ("https" +:+ "://" +:+ netloc +:+ rest))
      with ("https" +:+ String ":" ("//" +:+ netloc +:+ rest)).
    rewrite str_filter_append.
    change (str_filter _ "https") with "https".
    change (String ":" ("//" +:+ netloc +:+ rest))
      with (":" +:+ "//" +:+ (netloc +:+ rest)).
    rewrite !str_filter_append, Hfilter.
    change (str_filter _ ":") with ":". change (str_filter _ "//") with "//".
    change (":" +:+ "//" +:+ netloc +:+ ?t)
      with (String ":" ("//" +:+ (netloc +:+ t))).
    rewrite partition_append by done.
    change (is_ascii_alpha "h" && str_forallb is_scheme_char "https")
      with true.
    cbv iota beta.
    change (after_double_slash ("//" +:+ ?t)) with (Some t).
    cbv iota beta zeta.
    rewrite splitnetloc_append by done.
    rewrite H5, H6. simpl. done.
Qed.

(** X13: an [http] or [https] URL with a plain host name and no port
    resolves to the host name in lower case followed by the default port
    of the scheme, whatever its path, query or fragment. *)
Theorem extract_target_default_port (sch host rest : string) :
  sch = "http" ∨ sch = "https" →
  host ≠ "" →
  str_forallb is_host_char host = true →
  starts_path rest = true →
  check_netloc host = true →
  extract_target_from_url (sch +:+ "://" +:+ host +:+ rest)
  = Some (lower host +:+ (if decide (sch = "https") then ":443" else ":80")).
Proof.
  intros Hsch Hne Hhost Hrest Hok.
  unfold extract_target_from_url, extract_target.
  rewrite (urlparse_plain sch host rest Hsch (host_text_of_host _ Hhost) Hrest).
  rewrite Hok. simpl.
  pose proof (hostinfo_host sch host Hhost) as Hinfo.
  rewrite (hostname_host sch host host None Hhost Hne Hinfo).
  unfold port. rewrite Hinfo. simpl.
  destruct Hsch as [-> | ->]; done.
Qed.


(** X15: when the text after the colon is not a decimal number, or is a
    number above 65535, the parser raises and the resolver hands back the
    URL exactly as it was given. *)
Theorem extract_target_unusable_port (sch host ptext rest : string) :
  sch = "http" ∨ sch = "https" →
  host ≠ "" →
  str_forallb is_host_char host = true →
  ptext ≠ "" →
  str_forallb is_host_char ptext = true →
  str_forallb is_ascii_digit ptext = false
  ∨ (65535 < int_of_digits 0 ptext)%N →
  starts_path rest = true →
  check_netloc (host +:+ ":" +:+ ptext) = true →
  extract_target_from_url (sch +:+ "://" +:+ (host +:+ ":" +:+ ptext) +:+ rest)
  = Some (sch +:+ "://" +:+ (host +:+ ":" +:+ ptext) +:+ rest).
Proof.
  intros Hsch Hne Hhost Hpne Hptext Hbad Hrest Hok.
  unfold extract_target_from_url, extract_target.
  rewrite (urlparse_plain sch (host +:+ ":" +:+ ptext) rest Hsch); [| | done].
  2:{ rewrite !str_forallb_append.
      rewrite (host_text_of_host host), (host_text_of_host ptext) by done.
      done. }
  rewrite Hok. simpl.
  pose proof (hostinfo_host_port sch host ptext Hhost Hptext Hpne) as Hinfo.
  unfold port. rewrite Hinfo. simpl.
  destruct (str_forallb is_ascii_digit ptext) eqn:Hdigits; [| done].
  destruct Hbad as [Hbad | Hbad]; [done |].
  apply N.leb_gt in Hbad. by rewrite Hbad.
Qed.

End Resolver.

(** * More sample runs *)

(** X2 on a world without a process handle. *)
Lemma reload_prometheus_not_running_witness :
  ∃ w' tr,
    reload_prometheus
      (H := example_platform (Table [row_A]) None true DiskOk)
      (example_world None None)
    = (Return false, w')
    ∧ log w' = tr
    ∧ config_file w' = Some "scrape_configs: old"
    ∧ occurrences EvConnect tr = 0
    ∧ occurrences (EvKill SIGHUP) tr = 0
    ∧ ∀ content, occurrences (EvWriteConfig content) tr = 0.
Proof.
  apply (reload_prometheus_not_running
           (H := example_platform (Table [row_A]) None true DiskOk)
           (example_world None None)).
  reflexivity.
Defined.

(** X5 on a registry whose fingerprint is the stored one. *)
Lemma monitor_cycle_without_change_witness :
  monitor_cycle
    (H := example_platform (Table [row_A]) None true DiskOk)
    (example_world (Some daemon)
       (Some "md5:A,https://a.com/m,t1,Web API"))
  = (Return tt,
     advance 1 [EvConnect; EvSleep 30]
       (example_world (Some daemon)
          (Some "md5:A,https://a.com/m,t1,Web API"))).
Proof.
  apply (monitor_cycle_without_change
           (H := example_platform (Table [row_A]) None true DiskOk)
           (example_world (Some daemon)
              (Some "md5:A,https://a.com/m,t1,Web API"))
           "md5:A,https://a.com/m,t1,Web API").
  - reflexivity.
  - vm_compute. reflexivity.
Defined.

(** X6 on a world that has no fingerprint yet. *)
Lemma monitor_cycle_baseline_witness :
  ∃ w',
    monitor_cycle
      (H := example_platform (Table [row_A]) None true DiskOk)
      (example_world (Some daemon) None)
    = (Return tt, w')
    ∧ last_services_hash w'
      = get_services_hash
          (H := example_platform (Table [row_A]) None true DiskOk)
          (fetched (Table [row_A]))
    ∧ log w'
      = [EvConnect;
         EvAssignHash
           (get_services_hash
              (H := example_platform (Table [row_A]) None true DiskOk)
              (fetched (Table [row_A])));
         EvSleep 30]
    ∧ config_file w' = Some "scrape_configs: old"
    ∧ prometheus_process w' = Some daemon.
Proof.
  apply (monitor_cycle_baseline
           (H := example_platform (Table [row_A]) None true DiskOk)
           (example_world (Some daemon) None)).
  reflexivity.
Defined.

(** X7 on a check that reports a change. *)
Lemma check_for_service_changes_stores_hash_witness :
  [service_of_row row_A] = fetched (Table [row_A])
  ∧ Some "md5:A,https://a.com/m,t1,Web API"
    = get_services_hash
        (H := example_platform (Table [row_A]) None true DiskOk)
        [service_of_row row_A].
Proof.
  apply (check_for_service_changes_stores_hash
           (H := example_platform (Table [row_A]) None true DiskOk)
           (example_world None (Some "md5:stale"))
           {| prometheus_process := None;
              last_services_hash := Some "md5:A,https://a.com/m,t1,Web API";
              config_file := Some "scrape_configs: old";
              now := 1;
              log := [EvConnect;
                      EvAssignHash
                        (Some "md5:A,https://a.com/m,t1,Web API")] |}
           true [service_of_row row_A]).
  vm_compute. reflexivity.
Defined.

(** X8 on two checks in a row. *)
Lemma check_for_service_changes_reports_once_witness :
  ∃ w2,
    check_for_service_changes
      (H := example_platform (Table [row_A]) None true DiskOk)
      {| prometheus_process := None;
         last_services_hash := Some "md5:A,https://a.com/m,t1,Web API";
         config_file := Some "scrape_configs: old";
         now := 1;
         log := [EvConnect;
                 EvAssignHash (Some "md5:A,https://a.com/m,t1,Web API")] |}
    = (Return (false, [service_of_row row_A]), w2)
    ∧ last_services_hash w2 = Some "md5:A,https://a.com/m,t1,Web API".
Proof.
  apply (check_for_service_changes_reports_once
           (H := example_platform (Table [row_A]) None true DiskOk)
           (example_world None (Some "md5:stale"))).
  - vm_compute. reflexivity.
  - reflexivity.
Defined.

(** X9 on the three sample services. *)
Lemma config_of_services_keeps_services_witness :
  mjoin
    (job_addresses
       <$> (org_job (H := example_platform (Table []) None true DiskOk)
              <$> [ ("t1", service_of_row <$> [row_A; row_B]);
                    ("t2", [service_of_row row_C]) ]))
  ≡ₚ (λ s, extract_target_from_url
             (H := example_platform (Table []) None true DiskOk)
             (metric_url s))
       <$> (service_of_row <$> [row_A; row_B; row_C]).
Proof.
  refine (config_of_services_keeps_services
           (H := example_platform (Table []) None true DiskOk)
           (service_of_row <$> [row_A; row_B; row_C])
           {| global := [("scrape_interval", "15s");
                         ("evaluation_interval", "15s")];
              scrape_configs :=
                self_job
                  (H := example_platform (Table []) None true DiskOk)
                :: (org_job
                      (H := example_platform (Table []) None true DiskOk)
                      <$> [ ("t1", service_of_row <$> [row_A; row_B]);
                            ("t2", [service_of_row row_C]) ]) |} _).
  vm_compute. reflexivity.
Defined.

(** X10 on the three sample services. *)
Lemma config_of_services_job_names_witness :
  NoDup ["prometheus"; "org_t1"; "org_t2"].
Proof.
  change (NoDup
            (job_name
               <$> self_job
                     (H := example_platform (Table []) None true DiskOk)
                   :: (org_job
                         (H := example_platform (Table []) None true DiskOk)
                         <$> [ ("t1", service_of_row <$> [row_A; row_B]);
                               ("t2", [service_of_row row_C]) ]))).
  apply (config_of_services_job_names
           (H := example_platform (Table []) None true DiskOk)
           (service_of_row <$> [row_A; row_B; row_C])
           {| global := [("scrape_interval", "15s");
                         ("evaluation_interval", "15s")];
              scrape_configs :=
                self_job
                  (H := example_platform (Table []) None true DiskOk)
                :: (org_job
                      (H := example_platform (Table []) None true DiskOk)
                      <$> [ ("t1", service_of_row <$> [row_A; row_B]);
                            ("t2", [service_of_row row_C]) ]) |}).
  vm_compute. reflexivity.
Defined.

(** X11 on a daemon that the operating system reports as exited. *)
Lemma stop_prometheus_exited_witness :
  ∃ w' code,
    stop_prometheus
      (H := example_platform (Table []) (Some 1%Z) true DiskOk)
      (example_world (Some daemon) None)
    = (Return true, w')
    ∧ log w' = [EvPoll false]
    ∧ prometheus_process w'
      = Some {| pid := 4242; returncode := Some code |}
    ∧ config_file w' = Some "scrape_configs: old".
Proof.
  apply (stop_prometheus_exited
           (H := example_platform (Table []) (Some 1%Z) true DiskOk)
           (example_world (Some daemon) None) daemon).
  - reflexivity.
  - reflexivity.
Defined.

(** X13 on the URL of the specification. *)
Lemma extract_target_default_port_witness :
  extract_target_from_url
    (H := example_platform (Table []) None true DiskOk)
    "https://abc.com/metrics"
  = Some "abc.com:443".
Proof.
  apply (extract_target_default_port
           (H := example_platform (Table []) None true DiskOk)
           "https" "abc.com" "/metrics").
  - by right.
  - discriminate.
  - reflexivity.
  - reflexivity.
  - reflexivity.
Defined.


(** X15 on a port above 65535. *)
Lemma extract_target_unusable_port_witness :
  extract_target_from_url
    (H := example_platform (Table []) None true DiskOk)
    "http://a.com:99999/"
  = Some "http://a.com:99999/".
Proof.
  apply (extract_target_unusable_port
           (H := example_platform (Table []) None true DiskOk)
           "http" "a.com" "99999" "/").
  - by left.
  - discriminate.
  - reflexivity.
  - discriminate.
  - reflexivity.
  - right. reflexivity.
  - reflexivity.
  - reflexivity.
Defined.

(** * The port reclaimer *)

Lemma act_act (n1 n2 : nat) (a1 a2 : list Action) (h : Host) :
  act n2 a2 (act n1 a1 h) = act (n2 + n1) (a1 ++ a2) h.
Proof. unfold act. simpl. f_equal; [lia | by rewrite app_assoc]. Qed.

Lemma act_0_nil (h : Host) : act 0 [] h = h.
Proof. unfold act. destruct h. simpl. by rewrite app_nil_r. Qed.

Lemma slept_app (tr1 tr2 : list Action) :
  slept (tr1 ++ tr2) = slept tr1 + slept tr2.
Proof.
  induction tr1 as [| [argv | argv | seconds] tr1 IH]; simpl; lia.
Qed.

Lemma children_app (tr1 tr2 : list Action) :
  children (tr1 ++ tr2) = children tr1 ++ children tr2.
Proof.
  induction tr1 as [| [argv | argv | seconds] tr1 IH]; simpl;
    by rewrite ?IH.
Qed.

Lemma commands_app (tr1 tr2 : list Action) :
  commands (tr1 ++ tr2) = commands tr1 + commands tr2.
Proof.
  induction tr1 as [| [argv | argv | seconds] tr1 IH]; simpl; lia.
Qed.

Section Reclaimer.

Context `{Machine}.

(** What is done about one process id. *)
Lemma kill_pid_guarded_run (pid : string) (h : Host) :
  ∃ r n tr,
    kill_pid_guarded pid h = (r, act n tr h)
    ∧ r ≠ Fail TimeoutExpired
    ∧ (slept tr ≤ 2)%nat ∧ (commands tr ≤ 3)%nat
    ∧ children tr = []
    ∧ (programs_run → r = Ok tt ∧ pid_steps pid tr).
Proof.
  pose (term := ActRun ["kill"; "-TERM"; pid]).
  pose (probe := ActRun ["kill"; "-0"; pid]).
  pose (force := ActRun ["kill"; "-KILL"; pid]).
  unfold kill_pid_guarded, kill_pid, hbind, subprocess_run, time_sleep, hret.
  destruct (run_at (clock h) ["kill"; "-TERM"; pid]) as [c1 o1 | | |] eqn:H1;
    simpl.
  2:{ exists (Ok tt), 1, [term]. split; [reflexivity |]. split; [done |].
      split; [simpl; lia |]. split; [simpl; lia |]. split; [done |].
      intros _. split; [done | constructor]. }
  2:{ exists (Fail FileNotFoundError), 1, [term].
      split; [reflexivity |]. split; [done |].
      split; [simpl; lia |]. split; [simpl; lia |]. split; [done |].
      intros Hrun. by destruct (Hrun (clock h) ["kill"; "-TERM"; pid]). }
  2:{ exists (Fail (Python OSError)), 1, [term].
      split; [reflexivity |]. split; [done |].
      split; [simpl; lia |]. split; [simpl; lia |]. split; [done |].
      intros Hrun. by destruct (Hrun (clock h) ["kill"; "-TERM"; pid]). }
  destruct (run_at (S (clock h)) ["kill"; "-0"; pid])
    as [c2 o2 | | |] eqn:H2; simpl.
  2:{ exists (Ok tt), 2, [term; ActSleep 2; probe].
      rewrite !act_act. split; [reflexivity |]. split; [done |].
      split; [simpl; lia |]. split; [simpl; lia |]. split; [done |].
      intros _. split; [done | constructor]. }
  2:{ exists (Fail FileNotFoundError), 2, [term; ActSleep 2; probe].
      rewrite !act_act. split; [reflexivity |]. split; [done |].
      split; [simpl; lia |]. split; [simpl; lia |]. split; [done |].
      intros Hrun. by destruct (Hrun (S (clock h)) ["kill"; "-0"; pid]). }
  2:{ exists (Fail (Python OSError)), 2, [term; ActSleep 2; probe].
      rewrite !act_act. split; [reflexivity |]. split; [done |].
      split; [simpl; lia |]. split; [simpl; lia |]. split; [done |].
      intros Hrun. by destruct (Hrun (S (clock h)) ["kill"; "-0"; pid]). }
  destruct (decide (c2 = 0%Z)) as [-> | Hc2]; simpl.
  2:{ exists (Ok tt), 2, [term; ActSleep 2; probe].
      rewrite !act_act. split; [reflexivity |]. split; [done |].
      split; [simpl; lia |]. split; [simpl; lia |]. split; [done |].
      intros _. split; [done | constructor]. }
  destruct (run_at (S (S (clock h))) ["kill"; "-KILL"; pid])
    as [c3 o3 | | |] eqn:H3; simpl.
  - exists (Ok tt), 3, [term; ActSleep 2; probe; force].
    rewrite !act_act. split; [reflexivity |]. split; [done |].
      split; [simpl; lia |]. split; [simpl; lia |]. split; [done |].
    intros _. split; [done | constructor].
  - exists (Ok tt), 3, [term; ActSleep 2; probe; force].
    rewrite !act_act. split; [reflexivity |]. split; [done |].
      split; [simpl; lia |]. split; [simpl; lia |]. split; [done |].
    intros _. split; [done | constructor].
  - exists (Fail FileNotFoundError), 3, [term; ActSleep 2; probe; force].
    rewrite !act_act. split; [reflexivity |]. split; [done |].
      split; [simpl; lia |]. split; [simpl; lia |]. split; [done |].
    intros Hrun.
    by destruct (Hrun (S (S (clock h))) ["kill"; "-KILL"; pid]).
  - exists (Fail (Python OSError)), 3, [term; ActSleep 2; probe; force].
    rewrite !act_act. split; [reflexivity |]. split; [done |].
      split; [simpl; lia |]. split; [simpl; lia |]. split; [done |].
    intros Hrun.
    by destruct (Hrun (S (S (clock h))) ["kill"; "-KILL"; pid]).
Qed.

(** What is done about the lines of the output of [lsof]. *)
Lemma kill_pids_run (pids : list string) (h : Host) :
  ∃ r n tr,
    kill_pids pids h = (r, act n tr h)
    ∧ r ≠ Fail TimeoutExpired
    ∧ (slept tr ≤ 2 * length pids)%nat
    ∧ (commands tr ≤ 3 * length pids)%nat
    ∧ children tr = []
    ∧ (programs_run → r = Ok tt ∧ pids_steps pids tr).
Proof.
  revert h. induction pids as [| line pids IH]; intros h.
  { exists (Ok tt), 0, []. rewrite act_0_nil.
    split; [done |]. split; [done |]. split; [done |]. split; [done |].
    split; [done |]. intros _. split; [done | constructor]. }
  simpl kill_pids. unfold hbind.
  destruct (decide (strip line = "")) as [Hblank | Hpid].
  - rewrite bool_decide_eq_false_2 by (intros Hc; by apply Hc).
    unfold hret at 1.
    destruct (IH h) as (r & n & tr & -> & Hr & Hs & Hc & Hch & Hrun).
    exists r, n, tr. split; [done |]. split; [done |].
    split; [simpl; lia |]. split; [simpl; lia |]. split; [done |].
    intros Hp. destruct (Hrun Hp) as [-> Hsteps].
    split; [done |]. by constructor.
  - rewrite bool_decide_eq_true_2 by done.
    destruct (kill_pid_guarded_run (strip line) h)
      as (r1 & n1 & tr1 & -> & Hr1 & Hs1 & Hc1 & Hch1 & Hrun1).
    destruct r1 as [[] | e1].
    + destruct (IH (act n1 tr1 h))
        as (r & n & tr & -> & Hr & Hs & Hc & Hch & Hrun).
      exists r, (n + n1), (tr1 ++ tr). rewrite act_act.
      split; [done |]. split; [done |].
      split; [rewrite slept_app; simpl; lia |].
      split; [rewrite commands_app; simpl; lia |].
      split; [by rewrite children_app, Hch1, Hch |].
      intros Hp. destruct (Hrun Hp) as [-> Hsteps].
      destruct (Hrun1 Hp) as [_ Hsteps1].
      split; [done |]. by constructor.
    + exists (Fail e1), n1, tr1. split; [done |]. split; [done |].
      split; [simpl; lia |]. split; [simpl; lia |]. split; [done |].
      intros Hp. by destruct (Hrun1 Hp).
Qed.

Lemma netstat_fallback_run (port : N) (h : Host) :
  ∃ freed,
    netstat_fallback port h
    = (Ok freed, act 1 [ActRun ["netstat"; "-tlnp"]] h)
    ∧ freed
      = match run_at (clock h) ["netstat"; "-tlnp"] with
        | Completed _ stdout =>
            negb (str_in (":" +:+ pretty port +:+ " ") stdout)
        | _ => false
        end.
Proof.
  unfold netstat_fallback, subprocess_run.
  destruct (run_at (clock h) ["netstat"; "-tlnp"]); eexists; done.
Qed.

(** Everything a call of the reclaimer can do. *)
Lemma kill_processes_on_port_run (port : N) (h : Host) :
  ∃ freed h' tr,
    kill_processes_on_port port h = (Ok freed, h')
    ∧ world h' = world h
    ∧ actions h' = actions h ++ ActRun (lsof_command port) :: tr
    ∧ (clock h ≤ clock h')%nat
    ∧ children tr = []
    ∧ (slept tr ≤ 2 * length (lsof_lines port (clock h)) + 3)%nat
    ∧ (commands tr ≤ 3 * length (lsof_lines port (clock h)) + 1)%nat.
Proof.
  unfold kill_processes_on_port, hbind, subprocess_run, lsof_lines.
  fold (lsof_command port).
  destruct (run_at (clock h) (lsof_command port)) as [code out | | |];
    simpl.
  - destruct (bool_decide (code = 0%Z) && bool_decide (strip out ≠ ""));
      simpl.
    + destruct (kill_pids_run (split "010" (strip out))
                  (act 1 [ActRun (lsof_command port)] h))
        as (r & n & tr & -> & Hr & Hs & Hc & Hch & _).
      destruct r as [[] | [| | e]]; simpl.
      * unfold time_sleep, hret. simpl.
        eexists true, _, (tr ++ [ActSleep 3]).
        split; [reflexivity |]. simpl. split; [done |].
        split; [by rewrite <- !app_assoc |]. split; [lia |].
        split; [by rewrite children_app, Hch |].
        rewrite slept_app, commands_app. simpl. lia.
      * done.
      * destruct (netstat_fallback_run port
                    (act n tr (act 1 [ActRun (lsof_command port)] h)))
          as (freed & -> & _).
        eexists freed, _, (tr ++ [ActRun ["netstat"; "-tlnp"]]).
        split; [reflexivity |]. simpl. split; [done |].
        split; [by rewrite <- !app_assoc |]. split; [lia |].
        split; [by rewrite children_app, Hch |].
        rewrite slept_app, commands_app. simpl. lia.
      * eexists false, _, tr. split; [reflexivity |]. simpl.
        split; [done |]. split; [by rewrite <- !app_assoc |].
        split; [lia |]. split; [done |]. lia.
    + eexists true, _, []. split; [reflexivity |]. simpl.
      split; [done |]. split; [done |]. split; [lia |].
      split; [done |]. lia.
  - eexists false, _, []. split; [reflexivity |]. simpl.
    split; [done |]. split; [done |]. split; [lia |].
    split; [done |]. lia.
  - destruct (netstat_fallback_run port
                (act 1 [ActRun (lsof_command port)] h)) as (freed & -> & _).
    eexists freed, _, [ActRun ["netstat"; "-tlnp"]].
    split; [reflexivity |]. simpl. split; [done |].
    split; [by rewrite <- !app_assoc |]. split; [lia |].
    split; [done |]. lia.
  - eexists false, _, []. split; [reflexivity |]. simpl.
    split; [done |]. split; [done |]. split; [lia |].
    split; [done |]. lia.
Qed.

(** X16: [kill_processes_on_port] never raises and never touches the
    globals of the manager; the first thing it does is run [lsof], and for
    [L] lines of output it sleeps at most [2 L + 3] seconds and runs at
    most [3 L + 1] further programs, each of them under a timeout. *)
Theorem kill_processes_on_port_bounded (port : N) (h : Host) :
  ∃ freed h' tr,
    kill_processes_on_port port h = (Ok freed, h')
    ∧ world h' = world h
    ∧ actions h' = actions h ++ ActRun (lsof_command port) :: tr
    ∧ (slept tr ≤ 2 * length (lsof_lines port (clock h)) + 3)%nat
    ∧ (commands tr ≤ 3 * length (lsof_lines port (clock h)) + 1)%nat.
Proof.
  destruct (kill_processes_on_port_run port h)
    as (freed & h' & tr & Hrun & Hworld & Hactions & _ & _ & Hs & Hc).
  by exists freed, h', tr.
Qed.

(** X17: when [lsof] ends with a return code other than 0 or prints
    nothing but white space, the port counts as free: the answer is [True]
    and no other program is run, nor is any time slept. *)
Theorem kill_processes_on_port_free (port : N) (h : Host) (code : Z)
    (stdout : string) :
  run_at (clock h) (lsof_command port) = Completed code stdout →
  code ≠ 0%Z ∨ strip stdout = "" →
  kill_processes_on_port port h
  = (Ok true, act 1 [ActRun (lsof_command port)] h).
Proof.
  intros Hrun Hfree.
  unfold kill_processes_on_port, hbind, subprocess_run.
  fold (lsof_command port). rewrite Hrun. simpl.
  destruct Hfree as [Hcode | Hblank].
  - by rewrite (bool_decide_eq_false_2 (code = 0%Z)).
  - rewrite (bool_decide_eq_false_2 (strip stdout ≠ ""))
      by (intros Hc; by apply Hc).
    by rewrite andb_false_r.
Qed.

(** X18: when [lsof] cannot be used no process is signalled: on a timeout
    or another error the answer is [False]; when the program is missing
    [netstat] is run instead, and the answer is [True] exactly when it
    completes and its output does not mention the port followed by a
    blank. *)
Theorem kill_processes_on_port_without_lsof (port : N) (h : Host) :
  (run_at (clock h) (lsof_command port) = RunTimeout
   ∨ run_at (clock h) (lsof_command port) = RunError →
   kill_processes_on_port port h
   = (Ok false, act 1 [ActRun (lsof_command port)] h))
  ∧ (run_at (clock h) (lsof_command port) = RunNotFound →
     kill_processes_on_port port h
     = (Ok match run_at (S (clock h)) ["netstat"; "-tlnp"] with
           | Completed _ stdout =>
               negb (str_in (":" +:+ pretty port +:+ " ") stdout)
           | _ => false
           end,
        act 2 [ActRun (lsof_command port); ActRun ["netstat"; "-tlnp"]] h)).
Proof.
  unfold kill_processes_on_port, hbind, subprocess_run.
  fold (lsof_command port). split.
  - intros [-> | ->]; done.
  - intros ->.
    destruct (netstat_fallback_run port
                (act 1 [ActRun (lsof_command port)] h)) as (freed & -> & ->).
    by rewrite act_act.
Qed.


End Reclaimer.

(** * Starting the daemon *)

Section Starting.

Context `{Platform} `{Machine}.

(** Everything the start can do once the daemon is found not to be
    running. *)
Lemma launch_run (h : Host) :
  ∃ r h' tr,
    launch h = (r, h')
    ∧ actions h' = actions h ++ ActRun (lsof_command PROMETHEUS_PORT) :: tr
    ∧ last_services_hash (world h') = last_services_hash (world h)
    ∧ (children tr = [] ∧ r ≠ Ok true
       ∨ children tr = [prometheus_command]
         ∧ ∃ config p,
             config_file (world h') = Some (yaml_dump config)
             ∧ prometheus_process (world h') = Some p
             ∧ match returncode p with
               | None => r = Ok true
               | Some _ => r = Ok false
               end)
    ∧ (config_of_services (fetched (registry_at (now (world h)))) = None →
         r = Ok false
         ∧ children tr = []
         ∧ config_file (world h') = config_file (world h)
         ∧ prometheus_process (world h') = prometheus_process (world h)).
Proof.
  unfold launch, hbind.
  destruct (kill_processes_on_port_run PROMETHEUS_PORT h)
    as (freed & h1 & tr1 & -> & Hworld & Hactions & _ & Hchildren & _).
  unfold lift at 1. rewrite Hworld, write_prometheus_config_eq.
  destruct (config_of_services _) as [config |]; simpl.
  2:{ eexists _, _, tr1. split; [reflexivity |]. simpl.
      split; [done |]. split; [done |]. split; [by left |]. done. }
  destruct (disk_at (S (now (world h)))) as [| | | partial]; simpl.
  2,3,4: eexists _, _, tr1; (split; [reflexivity |]); simpl;
    (split; [done |]); (split; [done |]); (split; [by left |]); done.
  unfold subprocess_Popen. simpl.
  destruct (popen_at (clock h1) prometheus_command) as [child |]; simpl.
  2:{ eexists _, _, tr1. split; [reflexivity |]. simpl.
      rewrite app_nil_r.
      split; [done |]. split; [done |]. split; [by left |]. done. }
  unfold lift. simpl. rewrite poll_is_None_eq. simpl.
  destruct (returncode_at _) as [code |]; simpl.
  - eexists _, _, (tr1 ++ [ActPopen prometheus_command; ActSleep 2]).
    split; [reflexivity |]. simpl.
    split; [by rewrite Hactions, <- !app_assoc |]. split; [done |].
    split; [| done]. right. rewrite children_app, Hchildren.
    split; [done |]. by eexists config, _.
  - eexists _, _, (tr1 ++ [ActPopen prometheus_command; ActSleep 2]).
    split; [reflexivity |]. simpl.
    split; [by rewrite Hactions, <- !app_assoc |]. split; [done |].
    split; [| done]. right. rewrite children_app, Hchildren.
    split; [done |]. by eexists config, _.
Qed.

(** Everything a call of [start_prometheus] can do. *)
Lemma start_prometheus_run (h : Host) :
  ∃ started h' tr,
    start_prometheus h = (Ok started, h')
    ∧ actions h' = actions h ++ tr
    ∧ last_services_hash (world h') = last_services_hash (world h)
    ∧ (running_at (now (world h)) (world h) = true →
         started = true
         ∧ tr = []
         ∧ h' = {| world := advance 1 [EvPoll true] (world h);
                   clock := clock h;
                   actions := actions h |})
    ∧ (running_at (now (world h)) (world h) = false →
         (∃ tr', tr = ActRun (lsof_command PROMETHEUS_PORT) :: tr')
         ∧ (children tr = [] ∧ started = false
            ∨ children tr = [prometheus_command]
              ∧ ∃ config p,
                  config_file (world h') = Some (yaml_dump config)
                  ∧ prometheus_process (world h') = Some p
                  ∧ (started = true ↔ returncode p = None))
         ∧ ((∀ t, fetched (registry_at t) = []) →
              started = false
              ∧ children tr = []
              ∧ config_file (world h') = config_file (world h))).
Proof.
  destruct h as [w c a].
  unfold start_prometheus, hbind, lift. simpl.
  rewrite process_is_running_eq, poll_is_None_eq. unfold running_at.
  destruct (prometheus_process w) as [p |] eqn:Hp;
    [destruct (returncode p) as [code0 |] eqn:Hr;
       [| destruct (returncode_at (now w)) as [code |] eqn:Hc] |];
    simpl.
  3:{ eexists true, _, []. split; [reflexivity |]. simpl.
      rewrite app_nil_r. done. }
  all: match goal with
       | |- context [launch ?h1] =>
           destruct (launch_run h1)
             as (r & h' & tr & -> & Hactions & Hhash & Hchildren & Hempty)
       end.
  all: simpl in Hactions, Hhash, Hempty.
  all: exists (match r with Ok true => true | _ => false end), h',
         (ActRun (lsof_command PROMETHEUS_PORT) :: tr).
  all: split; [by destruct r as [[|] |] |].
  all: split; [done |]. all: split; [done |]. all: split; [done |].
  all: intros _; split; [by eexists |]; simpl; split.
  all: try (intros Hnone; rewrite Hnone in Hempty;
            by destruct Hempty as (-> & ? & ? & _)).
  all: destruct Hchildren
         as [[Hnone Hr'] | (Hone & config & p' & Hfile & Hp' & Hcode)];
         [left; split; [done |]; by destruct r as [[|] |] |].
  all: right; split; [done |]; exists config, p'.
  all: split; [done |]; split; [done |].
  all: destruct (returncode p'); subst r; done.
Qed.

(** X20: when the daemon is running, [start_prometheus] answers [True]
    after the poll alone: the port is not cleaned, no configuration is
    generated and no program is run. *)
Theorem start_prometheus_already_running (h : Host) :
  running_at (now (world h)) (world h) = true →
  start_prometheus h
  = (Ok true,
     {| world := advance 1 [EvPoll true] (world h);
        clock := clock h;
        actions := actions h |}).
Proof.
  intros Hrunning.
  destruct (start_prometheus_run h)
    as (started & h' & tr & -> & _ & _ & Hyes & _).
  by destruct (Hyes Hrunning) as (-> & _ & ->).
Qed.

(** X21: [start_prometheus] never raises and leaves the stored
    fingerprint alone.  It creates at most one child, with the command
    line of the daemon, and only when the daemon was not running and the
    complete document is in the configuration file; the child's handle is
    then kept whether or not the child survived the two seconds, and the
    answer is [True] exactly when it did.  Without a child the answer
    is [True] only for a daemon that was already running. *)
Theorem start_prometheus_outcome (h : Host) :
  ∃ started h' tr,
    start_prometheus h = (Ok started, h')
    ∧ actions h' = actions h ++ tr
    ∧ last_services_hash (world h') = last_services_hash (world h)
    ∧ (children tr = []
       ∧ (started = true → running_at (now (world h)) (world h) = true)
       ∨ children tr = [prometheus_command]
         ∧ running_at (now (world h)) (world h) = false
         ∧ ∃ config p,
             config_file (world h') = Some (yaml_dump config)
             ∧ prometheus_process (world h') = Some p
             ∧ (started = true ↔ returncode p = None)).
Proof.
  destruct (start_prometheus_run h)
    as (started & h' & tr & Hrun & Hactions & Hhash & Hyes & Hno).
  exists started, h', tr.
  split; [done |]. split; [done |]. split; [done |].
  destruct (running_at (now (world h)) (world h)).
  - destruct Hyes as (-> & -> & _); [done |]. by left.
  - destruct Hno as (_ & [[Hnone ->] | [Hone Hchild]] & _); [done | |].
    + by left.
    + by right.
Qed.

(** X22: with a registry that yields no service, a start of a daemon that
    is not running fails: no child is created and the configuration file
    keeps its content.  The port has been cleaned all the same. *)
Theorem start_prometheus_nothing_to_scrape (h : Host) :
  running_at (now (world h)) (world h) = false →
  (∀ t, fetched (registry_at t) = []) →
  ∃ h' tr,
    start_prometheus h = (Ok false, h')
    ∧ actions h' = actions h ++ ActRun (lsof_command PROMETHEUS_PORT) :: tr
    ∧ children tr = []
    ∧ config_file (world h') = config_file (world h).
Proof.
  intros Hstopped Hempty.
  destruct (start_prometheus_run h)
    as (started & h' & tr & -> & Hactions & _ & _ & Hno).
  destruct (Hno Hstopped) as ([tr' ->] & _ & Hnone).
  destruct (Hnone Hempty) as (-> & Hchildren & Hfile).
  by exists h', tr'.
Qed.

(** X23: a start that answered [True] leaves the daemon tracked, so that
    a second start, while the daemon is alive, is answered from the poll:
    the port is not cleaned again and no second daemon is created. *)
Theorem start_prometheus_twice (h h1 : Host) :
  start_prometheus h = (Ok true, h1) →
  returncode_at (now (world h1)) = None →
  start_prometheus h1
  = (Ok true,
     {| world := advance 1 [EvPoll true] (world h1);
        clock := clock h1;
        actions := actions h1 |}).
Proof.
  intros Hfirst Halive.
  assert (running_at (now (world h1)) (world h1) = true) as Hrunning.
  { destruct (start_prometheus_run h)
      as (started & h' & tr & Hrun & _ & _ & Hyes & Hno).
    rewrite Hfirst in Hrun. injection Hrun as <- <-.
    unfold running_at.
    destruct (running_at (now (world h)) (world h)) eqn:Hwas.
    - destruct Hyes as (_ & _ & ->); [done |]. simpl.
      simpl in Halive. unfold running_at in Hwas.
      destruct (prometheus_process (world h)) as [p |]; [| done].
      destruct (returncode p); [done |]. by rewrite Halive.
    - destruct Hno as (_ & [[_ ?] | (_ & config & p & _ & -> & Hcode)] & _);
        [done | done |].
      destruct Hcode as [Hcode _]. by rewrite Hcode, Halive. }
  destruct (start_prometheus_run h1)
    as (started & h' & tr & -> & _ & _ & Hyes & _).
  by destruct (Hyes Hrunning) as (-> & _ & ->).
Qed.

End Starting.

(** * The start-up and the loop *)

Lemma advance_0_nil (w : World) : advance 0 [] w = w.
Proof. destruct w. unfold advance. simpl. by rewrite app_nil_r. Qed.

Section Startup.

Context `{Platform}.

(** A turn of the loop that computes the stored fingerprint. *)
Lemma monitor_cycle_quiet (w : World) :
  get_services_hash (fetched (registry_at (now w))) = last_services_hash w →
  monitor_cycle w
  = (Return tt, advance 1 (quiet_turn (last_services_hash w)) w).
Proof.
  intros Hsame.
  unfold monitor_cycle, try_except, bind.
  pose proof (check_for_service_changes_eq w) as Heq. simpl in Heq.
  rewrite Hsame in Heq. rewrite Heq. clear Heq.
  destruct w as [process [F |] file t events]; simpl in *.
  - rewrite decide_True by done. simpl.
    unfold sleep, emit, advance. simpl. by rewrite <- !app_assoc.
  - unfold sleep, emit, advance. simpl. by rewrite <- !app_assoc.
Qed.

(** Turns of the loop over a registry that yields what the stored
    fingerprint was computed from. *)
Lemma monitor_cycles_quiet (r : Registry) (n : nat) (w : World) :
  (∀ t, now w ≤ t → registry_at t = r)%nat →
  last_services_hash w = get_services_hash (fetched r) →
  monitor_cycles n w
  = (Return tt,
     advance n (mjoin (replicate n (quiet_turn (last_services_hash w)))) w).
Proof.
  revert w. induction n as [| n IH]; intros w Hregistry Hhash.
  - simpl. by rewrite advance_0_nil.
  - simpl. unfold bind. rewrite monitor_cycle_quiet.
    2:{ by rewrite Hregistry, Hhash. }
    rewrite IH.
    + rewrite advance_advance. simpl last_services_hash.
      by replace (n + 1) with (S n) by lia.
    + intros t Ht. apply Hregistry. simpl in Ht. lia.
    + done.
Qed.


(** What [write_prometheus_config] always does. *)
Lemma write_prometheus_config_clock (w : World) :
  ∃ written w',
    write_prometheus_config w = (Return written, w')
    ∧ (now w < now w')%nat
    ∧ prometheus_process w' = prometheus_process w
    ∧ last_services_hash w' = last_services_hash w.
Proof.
  rewrite write_prometheus_config_eq. simpl.
  destruct (config_of_services _) as [config |].
  - destruct (disk_at (S (now w))); eexists _, _;
      (split; [reflexivity |]); simpl; (split; [lia | done]).
  - eexists _, _. split; [reflexivity |]. simpl. split; [lia | done].
Qed.

(** X25: the start-up never raises and does not touch the daemon.  It
    stores the fingerprint of a second reading of the registry, taken
    after the one the configuration file was written from.  When the
    registry stays as it was at that second reading, the turns of the loop
    that follow find no change, for any number of them: the file keeps
    what the first reading gave, also when this differs from what the
    registry holds since. *)
Theorem startup_then_monitoring (r : Registry) (n : nat) (w : World) :
  (∀ t, now w < t → registry_at t = r)%nat →
  ∃ w1 w2,
    startup w = (Return tt, w1)
    ∧ last_services_hash w1 = get_services_hash (fetched r)
    ∧ prometheus_process w1 = prometheus_process w
    ∧ config_file w1 = config_file (write_prometheus_config w).2
    ∧ monitor_cycles n w1 = (Return tt, w2)
    ∧ log w2
      = log w1
        ++ mjoin (replicate n (quiet_turn (get_services_hash (fetched r))))
    ∧ last_services_hash w2 = last_services_hash w1
    ∧ prometheus_process w2 = prometheus_process w
    ∧ config_file w2 = config_file w1.
Proof.
  intros Hregistry.
  unfold startup, bind.
  destruct (write_prometheus_config_clock w)
    as (written & w' & -> & Hclock & Hprocess & _).
  rewrite fetch_services_eq. simpl.
  rewrite (Hregistry (now w')) by done.
  eexists _, _. split; [reflexivity |]. simpl.
  split; [done |]. split; [done |]. split; [done |].
  rewrite (monitor_cycles_quiet r).
  - split; [reflexivity |]. done.
  - intros t Ht. apply Hregistry. simpl in Ht. lia.
  - done.
Qed.

End Startup.

(** * Sample runs of the reclaimer, the start and the start-up *)

(** X17 on a machine where [lsof] prints nothing. *)
Lemma kill_processes_on_port_free_witness :
  kill_processes_on_port (H0 := example_machine "" 1 None) 9090
    (example_host (example_world None None))
  = (Ok true,
     act 1 [ActRun ["lsof"; "-ti"; ":9090"]]
       (example_host (example_world None None))).
Proof.
  apply (kill_processes_on_port_free (H := example_machine "" 1 None)
           9090 (example_host (example_world None None)) 0 "").
  - reflexivity.
  - right. reflexivity.
Defined.

(** X18 on a machine without [lsof] where [netstat] shows the port. *)
Lemma kill_processes_on_port_without_lsof_witness :
  kill_processes_on_port
    (H0 := example_machine_without_lsof "tcp 0.0.0.0:9090 LISTEN") 9090
    (example_host (example_world None None))
  = (Ok false,
     act 2 [ActRun ["lsof"; "-ti"; ":9090"]; ActRun ["netstat"; "-tlnp"]]
       (example_host (example_world None None))).
Proof.
  apply (proj2 (kill_processes_on_port_without_lsof
                  (H := example_machine_without_lsof
                          "tcp 0.0.0.0:9090 LISTEN")
                  9090 (example_host (example_world None None)))).
  reflexivity.
Defined.


(** X20 on a daemon that is alive. *)
Lemma start_prometheus_already_running_witness :
  start_prometheus
    (H := example_platform (Table [row_A]) None true DiskOk)
    (H0 := example_machine "123" 0 (Some 77%N))
    (example_host (example_world (Some daemon) None))
  = (Ok true,
     {| world := advance 1 [EvPoll true] (example_world (Some daemon) None);
        clock := 0;
        actions := [] |}).
Proof.
  apply (start_prometheus_already_running
           (H := example_platform (Table [row_A]) None true DiskOk)
           (H0 := example_machine "123" 0 (Some 77%N))
           (example_host (example_world (Some daemon) None))).
  reflexivity.
Defined.

(** X22 on an empty table, with a process on the port. *)
Lemma start_prometheus_nothing_to_scrape_witness :
  ∃ h' tr,
    start_prometheus
      (H := example_platform (Table []) None true DiskOk)
      (H0 := example_machine "123" 0 (Some 77%N))
      (example_host (example_world None None))
    = (Ok false, h')
    ∧ actions h' = [] ++ ActRun ["lsof"; "-ti"; ":9090"] :: tr
    ∧ children tr = []
    ∧ config_file (world h') = Some "scrape_configs: old".
Proof.
  apply (start_prometheus_nothing_to_scrape
           (H := example_platform (Table []) None true DiskOk)
           (H0 := example_machine "123" 0 (Some 77%N))
           (example_host (example_world None None))).
  - reflexivity.
  - intros t. reflexivity.
Defined.

(** X23 on a start from nothing that is followed by a second start. *)
Lemma start_prometheus_twice_witness :
  start_prometheus
    (H := example_platform (Table [row_A]) None true DiskOk)
    (H0 := example_machine "" 0 (Some 77%N))
    (start_prometheus
       (H := example_platform (Table [row_A]) None true DiskOk)
       (H0 := example_machine "" 0 (Some 77%N))
       (example_host (example_world None None))).2
  = (Ok true,
     {| world :=
          advance 1 [EvPoll true]
            (world
               (start_prometheus
                  (H := example_platform (Table [row_A]) None true DiskOk)
                  (H0 := example_machine "" 0 (Some 77%N))
                  (example_host (example_world None None))).2);
        clock := 2;
        actions :=
          [ActRun ["lsof"; "-ti"; ":9090"];
           ActPopen ["prometheus"; "--config.file=./prometheus.yml";
                     "--storage.tsdb.path=./prometheus_data";
                     "--web.enable-lifecycle";
                     "--web.listen-address=0.0.0.0:9090"];
           ActSleep 2] |}).
Proof.
  refine (start_prometheus_twice
            (H := example_platform (Table [row_A]) None true DiskOk)
            (H0 := example_machine "" 0 (Some 77%N))
            (example_host (example_world None None))
            (start_prometheus
               (H := example_platform (Table [row_A]) None true DiskOk)
               (H0 := example_machine "" 0 (Some 77%N))
               (example_host (example_world None None))).2 _ _).
  - vm_compute. reflexivity.
  - reflexivity.
Defined.


(** X25 on a table with one service, followed by two turns. *)
Lemma startup_then_monitoring_witness :
  ∃ w1 w2,
    startup (H := example_platform (Table [row_A]) None true DiskOk)
      (example_world None None)
    = (Return tt, w1)
    ∧ last_services_hash w1 = Some "md5:A,https://a.com/m,t1,Web API"
    ∧ prometheus_process w1 = None
    ∧ config_file w1 = Some "scrape_configs: ..."
    ∧ monitor_cycles
        (H := example_platform (Table [row_A]) None true DiskOk) 2 w1
      = (Return tt, w2)
    ∧ log w2
      = log w1 ++ mjoin (replicate 2 [EvConnect; EvSleep 30])
    ∧ last_services_hash w2 = last_services_hash w1
    ∧ prometheus_process w2 = None
    ∧ config_file w2 = config_file w1.
Proof.
  apply (startup_then_monitoring
           (H := example_platform (Table [row_A]) None true DiskOk)
           (Table [row_A]) 2 (example_world None None)).
  intros t _. reflexivity.
Defined.
